(** * lmwhisper: a shallow embedding of the pipeline core

    Python sources embedded here:
    - [lmwhisper/core/audio.py]          (module [Audio])
    - [lmwhisper/core/transcription.py]  (module [Transcription]), together
      with the part of Python's [wave] reader ([Wave_read], [_Chunk]) that
      [LocalWhisperClient.transcribe] drives (module [Wave])
    - [lmwhisper/core/conversation.py]   (module [Conversation])
    - [lmwhisper/core/persistence.py]    (module [Persistence])
    - [lmwhisper/settings.py]            (module [Settings])
    - [PyAudioMicrophone.open] and [chunks] with the device handles they
      hold (module [MicOpen]); a caller's run of [ConversationManager]
      calls (module [ManagerRun]); 16-bit PCM encoding of samples (module
      [PCM])

    Conventions.
    - Python [bytes] are [list byte].
    - Python [int] is [Z].
    - Python [float] values the code only passes through are [pyfloat], the
      IEEE-754 binary64 bit pattern; the normalised audio samples the code
      computes ([int16 / 32768.0], exact in float32) are [Q].
    - Python exceptions are the constructors of [exc]; a fallible
      computation returns [exc + A].
    - Mutable Python objects that several names alias ([Message] objects in
      [ConversationManager] and their metadata dicts) live in an explicit
      store indexed by [loc].
    - Files are a list of writes over [pathlib] paths, with the errors
      [open("wb")] raises as a parameter of the file system. *)

From Stdlib Require Import ZArith QArith Lia.
From Stdlib Require Import Strings.Byte Strings.Ascii.
From stdpp Require Import base list strings pretty.

Open Scope Z_scope.

(** ** Python values *)

(** A Python float, kept as its binary64 bit pattern. *)
Record pyfloat := PyFloat { float_bits : Z }.

(** JSON-like Python objects held in metadata dicts and in HTTP bodies. *)
#[local] Set Warnings "-register-all".
Inductive pyval :=
| VNone
| VBool (b : bool)
| VInt (z : Z)
| VFloat (f : pyfloat)
| VStr (s : string)
| VList (l : list pyval)
| VDict (d : list (string * pyval)).

(** A Python [dict] with [str] keys, as an insertion-ordered association list. *)
Definition pydict := list (string * pyval).

Fixpoint dict_get (k : string) (d : pydict) : option pyval :=
  match d with
  | [] => None
  | (k', v) :: d' => if String.eqb k k' then Some v else dict_get k d'
  end.

(** [d[k] = v]: replaces the value in place, or appends a new key. *)
Fixpoint dict_set (k : string) (v : pyval) (d : pydict) : pydict :=
  match d with
  | [] => [(k, v)]
  | (k', v') :: d' =>
      if String.eqb k k' then (k', v) :: d' else (k', v') :: dict_set k v d'
  end.

(** Python truthiness of a [dict]: non-empty. *)
Definition dict_truthy (d : pydict) : bool :=
  match d with [] => false | _ => true end.

(** The exceptions the embedded code can raise. *)
Inductive exc :=
| ValueError                       (** [range(..., 0)], [np.frombuffer] on an odd length *)
| RuntimeError_SampleWidth (bits : Z)  (** [transcribe]: "Unsupported WAV sample width" *)
| WaveError                        (** [wave.Error] *)
| WaveEOFError                     (** [EOFError] raised out of [wave.open] *)
| WaveSeekError                    (** [RuntimeError] from [_Chunk.seek] past the chunk end *)
| HTTPTransportError               (** [httpx.TransportError] raised by [post] *)
| HTTPStatusError (status : Z)     (** [httpx.HTTPStatusError] from [raise_for_status] *)
| ResponseShapeError               (** [KeyError]/[IndexError]/[TypeError] on the JSON body *)
| LibraryError (what : string)     (** an exception raised inside a third-party call *)
| TomlTypeError                    (** [tomli_w] refuses a value ([None]) *)
| IndexError                       (** [tuple[i]] out of range *)
| TypeError                        (** assignment to an item of a [tuple]; an unhashable
                                       or wrongly typed argument *)
| RuntimeError (msg : string)      (** [RuntimeError] raised with a message *)
| AttributeError                   (** [.get] on an object that is not a [dict] *)
| OverflowError                    (** [float(n)] for an [int] out of range *)
| OSError (what : string).         (** [open] failing: [FileNotFoundError], ... *)

(** ** Bytes *)

Definition bytes := list byte.

#[global] Instance byte_eq_decision : EqDecision byte := Byte.byte_eq_dec.

Definition byte_of_Z (z : Z) : byte :=
  match Byte.of_N (Z.to_N (z mod 256)) with Some b => b | None => x00 end.

Definition byte_val (b : byte) : Z := Z.of_N (Byte.to_N b).

(** [data[i:j]] for [0 <= i <= j]. *)
Definition slice (data : bytes) (i j : nat) : bytes := take (j - i) (drop i data).

(** [struct.unpack_from('<H', ...)] and [('<L', ...)] on the first bytes. *)
Definition le_u16 (b : bytes) : Z :=
  match b with
  | b0 :: b1 :: _ => byte_val b0 + 256 * byte_val b1
  | _ => 0
  end.

Definition le_u32 (b : bytes) : Z :=
  match b with
  | b0 :: b1 :: b2 :: b3 :: _ =>
      byte_val b0 + 256 * (byte_val b1 + 256 * (byte_val b2 + 256 * byte_val b3))
  | _ => 0
  end.

(** [==] on [bytes]. *)
Fixpoint bytes_eqb (x y : bytes) : bool :=
  match x, y with
  | [], [] => true
  | a :: x', c :: y' => Byte.eqb a c && bytes_eqb x' y'
  | _, _ => false
  end.

(** [bytes.startswith]. *)
Fixpoint startswith (data prefix : bytes) : bool :=
  match prefix, data with
  | [], _ => true
  | p :: ps, d :: ds => Byte.eqb p d && startswith ds ps
  | _ :: _, [] => false
  end.

(** A [b"..."] literal. *)
Definition bstr (s : string) : bytes := String.list_byte_of_string s.

(** ** Audio sources ([lmwhisper/core/audio.py]) *)
Module Audio.

Record AudioConfig := {
  sample_rate : Z;
  chunk_size : Z;
  channels : Z;
  format : string;
  device_index : option Z
}.

(** [AudioConfig()] *)
Definition default_config : AudioConfig :=
  {| sample_rate := 16000; chunk_size := 1024; channels := 1;
     format := "int16"; device_index := None |}.

(** [range(start, stop, step)] for [step > 0]; [fuel] bounds the number of
    elements and [stop] suffices as fuel since [step >= 1]. *)
Fixpoint range_pos (fuel : nat) (start stop step : nat) : list nat :=
  match fuel with
  | O => []
  | S fuel' =>
      if Nat.ltb start stop then start :: range_pos fuel' (start + step) stop step
      else []
  end.

Record FileAudioStream := {
  file_config : AudioConfig;
  _data : bytes
}.

(** [FileAudioStream.chunks]: the generator's full output.  [range] with a
    zero step raises [ValueError] (when the generator is first advanced); a
    negative step over [range(0, len, step)] is empty. *)
Definition file_chunks (s : FileAudioStream) : exc + list bytes :=
  let cs := chunk_size (file_config s) in
  let data := _data s in
  if Z.eqb cs 0 then inl ValueError
  else if Z.ltb cs 0 then inr []
  else
    let c := Z.to_nat cs in
    inr (map (fun index => slice data index (index + c))
             (range_pos (length data) 0 (length data) c)).

(** Opaque handles of the [pyaudio] objects. *)
Definition handle := nat.

Record PyAudioMicrophone := {
  mic_config : AudioConfig;
  _pyaudio : option handle;
  _stream : option handle
}.

(** [PyAudioMicrophone.__init__] *)
Definition mic_init (config : AudioConfig) : PyAudioMicrophone :=
  {| mic_config := config; _pyaudio := None; _stream := None |}.

(** The third-party calls made by [close]. *)
Inductive lib_call :=
| StopStream (h : handle)
| CloseStream (h : handle)
| Terminate (h : handle).

(** [lib c] is [Some e] when the library call [c] raises [e]. *)
Definition library := lib_call -> option exc.

(** [PyAudioMicrophone.close]: the calls made, the outcome and the new state. *)
Definition mic_close (lib : library) (m : PyAudioMicrophone)
  : list lib_call * (exc + unit) * PyAudioMicrophone :=
  let step1 :=
    match _stream m with
    | Some h =>
        match lib (StopStream h) with
        | Some e => ([StopStream h], inl e, m)
        | None =>
            match lib (CloseStream h) with
            | Some e => ([StopStream h; CloseStream h], inl e, m)
            | None => ([StopStream h; CloseStream h], inr tt,
                       {| mic_config := mic_config m; _pyaudio := _pyaudio m;
                          _stream := None |})
            end
        end
    | None => ([], inr tt, m)
    end in
  match step1 with
  | (calls, inl e, m1) => (calls, inl e, m1)
  | (calls, inr _, m1) =>
      match _pyaudio m1 with
      | Some p =>
          match lib (Terminate p) with
          | Some e => (calls ++ [Terminate p], inl e, m1)
          | None => (calls ++ [Terminate p], inr tt,
                     {| mic_config := mic_config m1; _pyaudio := None;
                        _stream := _stream m1 |})
          end
      | None => (calls, inr tt, m1)
      end
  end.

(** The two [MicrophoneStream] variants. *)
Inductive AudioSource :=
| Mic (m : PyAudioMicrophone)
| File (f : FileAudioStream).

(** [FileAudioStream.__init__] *)
Definition file_init (data : bytes) (config : AudioConfig) : FileAudioStream :=
  {| file_config := config; _data := data |}.

(** [close()] dispatched on the variant; [FileAudioStream.close] returns [None]. *)
Definition close (lib : library) (s : AudioSource)
  : list lib_call * (exc + unit) * AudioSource :=
  match s with
  | Mic m => let '(calls, r, m') := mic_close lib m in (calls, r, Mic m')
  | File f => ([], inr tt, File f)
  end.

(** A source holds no device resource. *)
Definition is_closed (s : AudioSource) : Prop :=
  match s with
  | Mic m => _pyaudio m = None /\ _stream m = None
  | File _ => True
  end.

(** A source as its constructor leaves it. *)
Definition freshly_constructed (s : AudioSource) : Prop :=
  match s with
  | Mic m => m = mic_init (mic_config m)
  | File f => f = file_init (_data f) (file_config f)
  end.

(** Test fixture: the default configuration with two-byte chunks. *)
Definition two_byte_chunks : AudioConfig :=
  {| sample_rate := 16000; chunk_size := 2; channels := 1;
     format := "int16"; device_index := None |}.

(** Test fixture: a library whose every call raises. *)
Definition failing_library : library := fun _ => Some (LibraryError "OSError").

End Audio.

(** ** Python's [wave] reader, as [wave.open(io.BytesIO(buf))] runs it

    This is the CPython 3.11 [Wave_read.initfp], [_read_fmt_chunk] and
    [readframes] over [_Chunk] (little-endian host).  The outer RIFF chunk
    is a view of the [chunksize] bytes that follow its 8-byte header (its
    reads stop there); positions below are offsets into that view, whose
    first four bytes are [b"WAVE"]. *)
Module Wave.

Record fmt_info := {
  nchannels : Z;
  sampwidth : Z;   (** bytes per sample: [(bits + 7) // 8] *)
  framerate : Z;
  framesize : Z
}.

(** The open [Wave_read] once [initfp] has found the data chunk. *)
Record Wave_read := {
  params : fmt_info;
  nframes : Z;
  riff_body : bytes;        (** the RIFF chunk's readable content *)
  data_start : nat;         (** offset of the data chunk's content *)
  data_size : Z             (** the data chunk's declared size *)
}.

(** [_read_fmt_chunk]: [d14] is [chunk.read(14)], [d2] is the following
    [chunk.read(2)]. *)
Definition read_fmt_chunk (d14 d2 : bytes) : exc + fmt_info :=
  if Nat.ltb (length d14) 14 then inl WaveEOFError
  else
    let wFormatTag := le_u16 d14 in
    let nch := le_u16 (drop 2 d14) in
    let rate := le_u32 (drop 4 d14) in
    if negb (Z.eqb wFormatTag 1) then inl WaveError
    else if Nat.ltb (length d2) 2 then inl WaveEOFError
    else
      let sw := (le_u16 d2 + 7) / 8 in
      if Z.eqb sw 0 then inl WaveError
      else if Z.eqb nch 0 then inl WaveError
      else inr {| nchannels := nch; sampwidth := sw; framerate := rate;
                  framesize := nch * sw |}.

(** [min(n, chunksize - size_read)] as a [nat]. *)
Definition bounded (n : nat) (room : Z) : nat := Nat.min n (Z.to_nat room).

(** The [while 1] loop of [initfp], from RIFF offset [pos] with the fmt
    chunk read so far.  A chunk header needs 8 bytes, otherwise [_Chunk]
    raises [EOFError] and the loop breaks; every other iteration advances
    [pos] by at least 8, so [fuel = S (length body)] is never exhausted. *)
Fixpoint scan_chunks (fuel : nat) (body : bytes) (riffsize : Z) (pos : nat)
  (fmt : option fmt_info) : exc + (fmt_info * nat * Z) :=
  match fuel with
  | O => inl WaveError
  | S fuel' =>
      let chunkname := take 4 (drop pos body) in
      let sizefield := take 4 (drop (pos + 4) body) in
      if Nat.ltb (length chunkname) 4 || Nat.ltb (length sizefield) 4 then
        (* break; then "fmt chunk and/or data chunk missing" *)
        inl WaveError
      else
        let chunksize := le_u32 sizefield in
        let c := (pos + 8)%nat in
        (* [chunk.skip()]: seek the RIFF view to the end of this chunk,
           padded to even length; past the RIFF end [seek] raises *)
        let skip fmt' :=
          let next := Z.of_nat c + chunksize + (chunksize mod 2) in
          if Z.ltb riffsize next then inl WaveSeekError
          else scan_chunks fuel' body riffsize (Z.to_nat next) fmt' in
        if bytes_eqb chunkname (bstr "fmt ") then
          let d14 := take (bounded 14 chunksize) (drop c body) in
          let d2 := take (bounded 2 (chunksize - Z.of_nat (length d14)))
                         (drop (c + length d14) body) in
          match read_fmt_chunk d14 d2 with
          | inl e => inl e
          | inr fi => skip (Some fi)
          end
        else if bytes_eqb chunkname (bstr "data") then
          match fmt with
          | None => inl WaveError   (* "data chunk before fmt chunk" *)
          | Some fi => inr (fi, c, chunksize)
          end
        else skip fmt
  end.

(** [wave.open(io.BytesIO(buf))] *)
Definition wave_open (buf : bytes) : exc + Wave_read :=
  let riffname := take 4 buf in
  let riffsizefield := take 4 (drop 4 buf) in
  if Nat.ltb (length riffname) 4 || Nat.ltb (length riffsizefield) 4 then
    inl WaveEOFError
  else if negb (bytes_eqb riffname (bstr "RIFF")) then inl WaveError
  else
    let riffsize := le_u32 riffsizefield in
    let body := take (Z.to_nat riffsize) (drop 8 buf) in
    if negb (bytes_eqb (take 4 body) (bstr "WAVE")) then inl WaveError
    else
      match scan_chunks (S (length body)) body riffsize 4 None with
      | inl e => inl e
      | inr (fi, c, sz) =>
          inr {| params := fi; nframes := sz / framesize fi; riff_body := body;
                 data_start := c; data_size := sz |}
      end.

(** [readframes(n)] right after [initfp] ([_data_seek_needed = 0]). *)
Definition readframes (w : Wave_read) (n : Z) : bytes :=
  if Z.eqb n 0 then []
  else
    let want := Z.to_nat (n * framesize (params w)) in
    take (bounded want (data_size w)) (drop (data_start w) (riff_body w)).

Definition getsampwidth (w : Wave_read) : Z := sampwidth (params w).
Definition getframerate (w : Wave_read) : Z := framerate (params w).
Definition getnframes (w : Wave_read) : Z := nframes w.

End Wave.

(** ** Speech to text ([lmwhisper/core/transcription.py]) *)
Module Transcription.

Record TranscriptSegment := {
  seg_text : string;
  seg_start : option pyfloat;
  seg_end : option pyfloat;
  seg_confidence : option pyfloat
}.

Record TranscriptResult := {
  text : string;
  segments : list TranscriptSegment;
  language : option string
}.

(** One entry of the engine's [result["segments"]]; [None] is a missing key. *)
Record EngineSegment := {
  item_text : option string;
  item_start : option pyfloat;
  item_end : option pyfloat;
  item_avg_logprob : option pyfloat
}.

(** The dict returned by [whisper]'s [model.transcribe]. *)
Record EngineResult := {
  result_text : option string;
  result_segments : option (list EngineSegment);
  result_language : option string
}.

(** The loaded whisper model: audio samples and language hint to result. *)
Definition WhisperModel := list Q -> option string -> EngineResult.

(** [LocalWhisperClient]: the model, [whisper.audio.SAMPLE_RATE], and the
    [resample_audio] the code imports from [whisper.audio] ([None]: the
    import fails). *)
Record LocalWhisperClient := {
  _whisper : WhisperModel;
  _sample_rate : Z;
  resample_audio : option (list Q -> Z -> Z -> list Q)
}.

(** An invocation of the underlying engine, with its arguments. *)
Record engine_call := EngineCall {
  call_audio : list Q;
  call_language : option string
}.

(** The effects of [transcribe]: the engine invocations made, then either
    an exception or a value. *)
Definition TM (A : Type) : Type := list engine_call * (exc + A).

Definition tret {A} (a : A) : TM A := ([], inr a).
Definition traise {A} (e : exc) : TM A := ([], inl e).
Definition tlift {A} (r : exc + A) : TM A := ([], r).
Definition tbind {A B} (m : TM A) (k : A -> TM B) : TM B :=
  match m with
  | (w, inl e) => (w, inl e)
  | (w, inr a) => let '(w', r) := k a in (w ++ w', r)
  end.

Notation "'tlet' x ':=' m 'in' k" := (tbind m (fun x => k))
  (at level 200, x name, m at level 100, k at level 200, right associativity).

(** [self._whisper.transcribe(audio, language=language, fp16=False)] *)
Definition invoke_engine (model : WhisperModel) (audio : list Q) (lang : option string)
  : TM EngineResult :=
  ([EngineCall audio lang], inr (model audio lang)).

(** [np.frombuffer(buf, dtype=np.int16)] on a little-endian host. *)
Fixpoint int16_samples (buf : bytes) : list Z :=
  match buf with
  | b0 :: b1 :: rest =>
      let u := le_u16 [b0; b1] in
      (if Z.leb 32768 u then u - 65536 else u) :: int16_samples rest
  | _ => []
  end.

Definition frombuffer_int16 (buf : bytes) : exc + list Z :=
  if Nat.even (length buf) then inr (int16_samples buf) else inl ValueError.

(** [audio_array.astype(np.float32) / 32768.0]: exact, so as rationals. *)
Definition normalize (samples : list Z) : list Q :=
  map (fun s => Qmake s 32768) samples.

Definition empty_result : TranscriptResult :=
  {| text := ""; segments := []; language := None |}.

Definition map_segment (item : EngineSegment) : TranscriptSegment :=
  {| seg_text := default "" (item_text item);
     seg_start := item_start item;
     seg_end := item_end item;
     seg_confidence := item_avg_logprob item |}.

(** Reading the audio: a WAV container or raw PCM, to a sample rate and
    int16 samples (lines 61-75 of [transcribe]). *)
Definition load_samples (cl : LocalWhisperClient) (audio_bytes : bytes) : TM (Z * list Z) :=
  if startswith audio_bytes (bstr "RIFF") then
    (tlet w := tlift (Wave.wave_open audio_bytes) in
     let sample_width := Wave.getsampwidth w in
     if negb (Z.eqb sample_width 2) then traise (RuntimeError_SampleWidth (sample_width * 8))
     else
       let frames := Wave.readframes w (Wave.getnframes w) in
       (tlet audio_array := tlift (frombuffer_int16 frames) in
        tret (Wave.getframerate w, audio_array)))
  else
    (tlet audio_array := tlift (frombuffer_int16 audio_bytes) in
     tret (_sample_rate cl, audio_array)).

(** Everything after the samples are known (lines 77-105). *)
Definition run_engine (cl : LocalWhisperClient) (sample_rate : Z) (audio_array : list Z)
  (lang : option string) : TM TranscriptResult :=
  match audio_array with
  | [] => tret empty_result
  | _ =>
      let audio := normalize audio_array in
      (tlet audio := (if Z.eqb sample_rate (_sample_rate cl) then tret audio
                else match resample_audio cl with
                     | Some resample => tret (resample audio sample_rate (_sample_rate cl))
                     | None => traise (LibraryError "ImportError: resample_audio")
                     end) in
       tlet result := invoke_engine (_whisper cl) audio lang in
       tret {| text := default "" (result_text result);
              segments := map map_segment (default [] (result_segments result));
              language := result_language result |})
  end.

(** [LocalWhisperClient.transcribe] *)
Definition transcribe (cl : LocalWhisperClient) (audio_stream : list bytes)
  (lang : option string) : TM TranscriptResult :=
  let audio_bytes := concat audio_stream in
  match audio_bytes with
  | [] => tret empty_result
  | _ =>
      (tlet r := load_samples cl audio_bytes in
       run_engine cl (fst r) (snd r) lang)
  end.

(** Test fixture: the canonical 44-byte PCM WAV layout (RIFF header, a
    16-byte fmt chunk, a data chunk), with the given channel count, frame
    rate and declared bits per sample. *)
Definition enc_u16 (n : Z) : bytes := [byte_of_Z n; byte_of_Z (n / 256)].
Definition enc_u32 (n : Z) : bytes :=
  [byte_of_Z n; byte_of_Z (n / 256); byte_of_Z (n / 65536); byte_of_Z (n / 16777216)].

Definition wav_file (nch rate bits : Z) (data : bytes) : bytes :=
  let width := (bits + 7) / 8 in
  bstr "RIFF" ++ enc_u32 (36 + Z.of_nat (length data)) ++ bstr "WAVE" ++
  bstr "fmt " ++ enc_u32 16 ++ enc_u16 1 ++ enc_u16 nch ++ enc_u32 rate ++
  enc_u32 (rate * nch * width) ++ enc_u16 (nch * width) ++ enc_u16 bits ++
  bstr "data" ++ enc_u32 (Z.of_nat (length data)) ++ data.

(** Test fixture: a WAV layout [wave] also reads: a [LIST] chunk before
    an 18-byte fmt chunk (with a [cbSize] field), then the data chunk. *)
Definition wav_file_list (nch rate bits : Z) (data : bytes) : bytes :=
  let width := (bits + 7) / 8 in
  bstr "RIFF" ++ enc_u32 (50 + Z.of_nat (length data)) ++ bstr "WAVE" ++
  bstr "LIST" ++ enc_u32 4 ++ bstr "INFO" ++
  bstr "fmt " ++ enc_u32 18 ++ enc_u16 1 ++ enc_u16 nch ++ enc_u32 rate ++
  enc_u32 (rate * nch * width) ++ enc_u16 (nch * width) ++ enc_u16 bits ++ enc_u16 0 ++
  bstr "data" ++ enc_u32 (Z.of_nat (length data)) ++ data.

(** Test fixture: a model that answers ["ok"], loaded at 16 kHz. *)
Definition ok_model : WhisperModel :=
  fun _ _ => {| result_text := Some "ok"; result_segments := Some []; result_language := Some "en" |}.

Definition sample_client : LocalWhisperClient :=
  {| _whisper := ok_model; _sample_rate := 16000; resample_audio := None |}.

End Transcription.

(** ** Conversation state and the LM Studio client
    ([lmwhisper/core/conversation.py]) *)
Module Conversation.

(** An aware [datetime] in UTC. *)
Record datetime := {
  year : Z; month : Z; day : Z; hour : Z; minute : Z; second : Z; microsecond : Z
}.

(** An object reference into a store of objects (see [store] below). *)
Definition loc := nat.

(** The [Message] dataclass.  [role] and [content] are whatever Python
    object the code stores there: [str] when built by the manager, the JSON
    value when built from the server's answer.  [metadata] refers to a
    mutable object, normally a [dict], which other messages and the caller
    may hold as well. *)
Record Message := {
  role : pyval;
  content : pyval;
  timestamp : datetime;
  metadata : loc
}.

(** The mutable objects the code shares: [Message]s and [dict]s. *)
Inductive obj :=
| OMessage (m : Message)
| ODict (d : pydict).

Abbreviation store := (list obj) (only parsing).

Definition msg_at (h : store) (l : loc) : option Message :=
  match h !! l with Some (OMessage m) => Some m | _ => None end.

Definition dict_at (h : store) (l : loc) : option pydict :=
  match h !! l with Some (ODict d) => Some d | _ => None end.

(** What one reads from a [Message]: its fields and the items of its
    metadata dict. *)
Record MessageData := {
  msg_role : pyval;
  msg_content : pyval;
  msg_timestamp : datetime;
  msg_metadata : pydict
}.

(** Reading the message at [l] ([None]: no message there, or its metadata
    is not a dict). *)
Definition read_message (h : store) (l : loc) : option MessageData :=
  match msg_at h l with
  | Some m =>
      match dict_at h (metadata m) with
      | Some d => Some {| msg_role := role m; msg_content := content m;
                          msg_timestamp := timestamp m; msg_metadata := d |}
      | None => None
      end
  | None => None
  end.

Record GenerationConfig := {
  temperature : pyfloat;
  max_tokens : option Z;
  system_prompt : option string
}.

(** [GenerationConfig()]; 0.7 as a binary64 is [0x3FE6666666666666]. *)
Definition default_generation_config : GenerationConfig :=
  {| temperature := PyFloat 4604480259023595110; max_tokens := None; system_prompt := None |}.

(** Python truthiness of an optional [str]. *)
Definition prompt_truthy (p : option string) : option string :=
  match p with
  | Some s => if String.eqb s "" then None else Some s
  | None => None
  end.

Record LMStudioClient := { _model : string }.

(** What [self._client.post("/chat/completions", json=payload)] gives back:
    a transport error raised by [httpx], or a response with its status code
    and its body parsed as JSON ([None]: not JSON). *)
Inductive transport_result :=
| TransportError
| HttpResponse (status : Z) (json : option pyval).

(** The server, as seen from one request. *)
Definition Server := pydict -> transport_result.

(** [{"role": msg.role, "content": msg.content}] *)
Definition chat_entry (msg : Message) : pyval :=
  VDict [("role", role msg); ("content", content msg)].

(** Lines 64-75 of [LMStudioClient.generate]: the request payload. *)
Definition build_payload (c : LMStudioClient) (messages : list Message)
  (config : GenerationConfig) : pydict :=
  let payload :=
    [("model", VStr (_model c));
     ("messages", VList (map chat_entry messages));
     ("temperature", VFloat (temperature config))] in
  let payload :=
    match max_tokens config with
    | Some n => dict_set "max_tokens" (VInt n) payload
    | None => payload
    end in
  match prompt_truthy (system_prompt config) with
  | Some sp =>
      (* [payload.setdefault("messages", [])] finds the key; then
         [payload["messages"].insert(0, ...)] *)
      match dict_get "messages" payload with
      | Some (VList l) =>
          dict_set "messages"
            (VList (VDict [("role", VStr "system"); ("content", VStr sp)] :: l)) payload
      | _ => payload
      end
  | None => payload
  end.

(** [obj[key]] on a JSON value. *)
Definition getitem_key (v : pyval) (k : string) : exc + pyval :=
  match v with
  | VDict d => match dict_get k d with Some x => inr x | None => inl ResponseShapeError end
  | _ => inl ResponseShapeError
  end.

(** [obj[0]] on a JSON value. *)
Definition getitem_first (v : pyval) : exc + pyval :=
  match v with
  | VList (x :: _) => inr x
  | _ => inl ResponseShapeError
  end.

(** [obj.get(key, default)] on a JSON value: a [dict] looks the key up;
    any other value has no [get] method. *)
Definition dict_get_default (v : pyval) (k : string) (dflt : pyval) : exc + pyval :=
  match v with
  | VDict d => inr (default dflt (dict_get k d))
  | _ => inl AttributeError
  end.

Definition sum_bind {A B} (m : exc + A) (k : A -> exc + B) : exc + B :=
  match m with inl e => inl e | inr a => k a end.

Notation "'slet' x ':=' m 'in' k" := (sum_bind m (fun x => k))
  (at level 200, x name, m at level 100, k at level 200, right associativity).

(** [LMStudioClient.generate]; [now] is the clock read by [Message()].  The
    reply is a new [Message] with a new metadata dict that nothing else
    refers to; it is returned as what it holds, and the caller stores it. *)
Definition generate (c : LMStudioClient) (server : Server) (messages : list Message)
  (config : option GenerationConfig) (now : datetime) : exc + MessageData :=
  let config := default default_generation_config config in
  let payload := build_payload c messages config in
  match server payload with
  | TransportError => inl HTTPTransportError
  | HttpResponse status body =>
      if negb (Z.leb 200 status && Z.ltb status 300) then inl (HTTPStatusError status)
      else
        match body with
        | None => inl ValueError
        | Some data =>
            slet choices := getitem_key data "choices" in
            slet first := getitem_first choices in
            slet choice := getitem_key first "message" in
            slet r := dict_get_default choice "role" (VStr "assistant") in
            slet ct := dict_get_default choice "content" (VStr "") in
            slet usage := dict_get_default data "usage" VNone in
            let md := match usage with VDict _ => dict_set "usage" usage [] | _ => [] end in
            inr {| msg_role := r; msg_content := ct; msg_timestamp := now; msg_metadata := md |}
        end
  end.

(** The exceptions that make up the [CompletionFailed] condition: both
    are subclasses of [httpx.HTTPError]. *)
Definition completion_failed (e : exc) : bool :=
  match e with HTTPTransportError | HTTPStatusError _ => true | _ => false end.

(** [ConversationManager]: its client and config, the object store it
    shares with its caller (its messages, their metadata dicts, the
    caller's own objects), and its [messages] list of references. *)
Record ConversationManager := {
  llm : LMStudioClient;
  config : GenerationConfig;
  heap : store;
  messages : list loc
}.

(** A new object. *)
Definition new_obj (h : store) (o : obj) : store * loc := (h ++ [o], length h).

(** A new [Message] holding [v], with a new metadata dict holding the
    items of [v]: [field(default_factory=dict)] gives the dict. *)
Definition new_message (h : store) (v : MessageData) : store * loc :=
  let '(h1, d) := new_obj h (ODict (msg_metadata v)) in
  new_obj h1 (OMessage {| role := msg_role v; content := msg_content v;
                          timestamp := msg_timestamp v; metadata := d |}).

(** [self.messages.append(message)] *)
Definition append_message (st : ConversationManager) (h : store) (l : loc) : ConversationManager :=
  {| llm := llm st; config := config st; heap := h; messages := messages st ++ [l] |}.

(** [metadata or {}]: the caller's object itself when it is truthy (a
    non-empty dict, or an object of another type), else a new empty dict. *)
Definition metadata_or_empty (h : store) (md : option loc) : store * loc :=
  match md with
  | Some r =>
      match dict_at h r with
      | Some d => if dict_truthy d then (h, r) else new_obj h (ODict [])
      | None => (h, r)
      end
  | None => new_obj h (ODict [])
  end.

(** [add_user_message(content, metadata=md)]: [md] is a reference to the
    caller's object. *)
Definition add_user_message (st : ConversationManager) (text : string)
  (md : option loc) (now : datetime) : ConversationManager * loc :=
  let '(h1, d) := metadata_or_empty (heap st) md in
  let '(h2, l) := new_obj h1 (OMessage {| role := VStr "user"; content := VStr text;
                                          timestamp := now; metadata := d |}) in
  (append_message st h2 l, l).

(** [add_system_message(content)] *)
Definition add_system_message (st : ConversationManager) (text : string) (now : datetime)
  : ConversationManager * loc :=
  let '(h1, l) := new_message (heap st) {| msg_role := VStr "system"; msg_content := VStr text;
                                           msg_timestamp := now; msg_metadata := [] |} in
  (append_message st h1 l, l).

(** The live [Message] objects behind a sequence of references. *)
Definition deref (h : store) (refs : list loc) : list Message :=
  omap (msg_at h) refs.

(** [generate_reply()] *)
Definition generate_reply (st : ConversationManager) (server : Server) (now : datetime)
  : ConversationManager * (exc + loc) :=
  match generate (llm st) server (deref (heap st) (messages st)) (Some (config st)) now with
  | inl e => (st, inl e)
  | inr v => let '(h1, l) := new_message (heap st) v in (append_message st h1 l, inr l)
  end.

(** [history()]: [tuple(self.messages)], a fresh immutable sequence of the
    same references. *)
Definition history (st : ConversationManager) : list loc := messages st.

(** What a caller can do with the tuple [h = manager.history()]. *)
Inductive snapshot_op :=
| TupleSetItem (i : nat) (m : loc)              (** [h[i] = m] *)
| SetRole (i : nat) (v : pyval)                 (** [h[i].role = v] *)
| SetContent (i : nat) (v : pyval)              (** [h[i].content = v] *)
| SetMetadata (i : nat) (d : loc)               (** [h[i].metadata = d], [d] an object *)
| MetadataSetItem (i : nat) (k : string) (v : pyval).  (** [h[i].metadata[k] = v] *)

Definition op_index (op : snapshot_op) : nat :=
  match op with
  | TupleSetItem i _ | SetRole i _ | SetContent i _ | SetMetadata i _
  | MetadataSetItem i _ _ => i
  end.

(** One operation on the snapshot [snap]: the new store, or the exception.
    [h[i]] is a [Message] for every manager a caller can reach; a field
    assignment changes that object, and [h[i].metadata[k] = v] changes the
    object its [metadata] refers to ([TypeError] when that is not a dict). *)
Definition apply_snapshot_op (snap : list loc) (h : store) (op : snapshot_op)
  : exc + store :=
  match op with
  | TupleSetItem _ _ => inl TypeError
  | _ =>
      match snap !! op_index op with
      | None => inl IndexError
      | Some l =>
          match msg_at h l with
          | None => inr h
          | Some m =>
              let set_message m' := inr (<[l := OMessage m']> h) in
              match op with
              | TupleSetItem _ _ => inl TypeError
              | SetRole _ v =>
                  set_message {| role := v; content := content m; timestamp := timestamp m;
                                 metadata := metadata m |}
              | SetContent _ v =>
                  set_message {| role := role m; content := v; timestamp := timestamp m;
                                 metadata := metadata m |}
              | SetMetadata _ d =>
                  set_message {| role := role m; content := content m; timestamp := timestamp m;
                                 metadata := d |}
              | MetadataSetItem _ k v =>
                  match dict_at h (metadata m) with
                  | Some d => inr (<[metadata m := ODict (dict_set k v d)]> h)
                  | None => inl TypeError
                  end
              end
          end
      end
  end.

(** A caller's run of operations on one snapshot, stopping at the first
    exception (which the caller may catch); the manager after it. *)
Fixpoint mutate_snapshot (snap : list loc) (st : ConversationManager) (ops : list snapshot_op)
  : ConversationManager :=
  match ops with
  | [] => st
  | op :: ops' =>
      match apply_snapshot_op snap (heap st) op with
      | inl _ => st
      | inr h' =>
          mutate_snapshot snap
            {| llm := llm st; config := config st; heap := h'; messages := messages st |} ops'
      end
  end.

(** [ConversationManager(llm=..., config=...)], in a store holding the
    caller's objects [h]. *)
Definition new_manager_in (h : store) (c : LMStudioClient) (cfg : GenerationConfig)
  : ConversationManager :=
  {| llm := c; config := cfg; heap := h; messages := [] |}.

Definition new_manager (c : LMStudioClient) (cfg : GenerationConfig) : ConversationManager :=
  new_manager_in [] c cfg.

(** Test fixtures: a server answering every request with one assistant
    choice, one that is down, and a clock reading. *)
Definition ok_server : Server :=
  fun _ => HttpResponse 200 (Some (VDict
    [("choices", VList [VDict [("message",
        VDict [("role", VStr "assistant"); ("content", VStr "hi")])]])])).

Definition down_server : Server := fun _ => HttpResponse 503 None.

Definition t0 : datetime :=
  {| year := 2024; month := 1; day := 2; hour := 3; minute := 4; second := 5; microsecond := 0 |}.

End Conversation.

(** ** TOML transcripts ([lmwhisper/core/persistence.py]) *)
Module Persistence.
Import Conversation.

(** [ConversationTurn]: [write] only reads its messages' fields and
    metadata items, so a turn holds what its two messages hold. *)
Record ConversationTurn := { user : MessageData; assistant : MessageData }.

Fixpoint zeros (k : nat) : string :=
  match k with O => EmptyString | S k' => String "0"%char (zeros k') end.

(** ['%0*d' % (w, n)] for [n >= 0]. *)
Definition pad (w : nat) (n : Z) : string :=
  let s := pretty (Z.to_N n) in zeros (w - String.length s) +:+ s.

(** [datetime.isoformat()] of a UTC datetime. *)
Definition isoformat (t : datetime) : string :=
  pad 4 (year t) +:+ "-" +:+ pad 2 (month t) +:+ "-" +:+ pad 2 (day t) +:+ "T" +:+
  pad 2 (hour t) +:+ ":" +:+ pad 2 (minute t) +:+ ":" +:+ pad 2 (second t) +:+
  (if Z.eqb (microsecond t) 0 then "" else "." +:+ pad 6 (microsecond t)) +:+
  "+00:00".

(** [_message_to_dict] *)
Definition message_to_dict (message : MessageData) : pyval :=
  VDict ([("role", msg_role message); ("content", msg_content message);
          ("timestamp", VStr (isoformat (msg_timestamp message)))] ++
         (if dict_truthy (msg_metadata message)
          then [("metadata", VDict (msg_metadata message))] else [])).

(** The document [TomlLogger.write] builds, with its two loops appending to
    [doc["messages"]]. *)
Definition build_doc (conversation_id : string) (now : datetime) (system : list MessageData)
  (turns : list ConversationTurn) (md : option pydict) : pyval :=
  let msgs := fold_left (fun acc message => acc ++ [message_to_dict message]) system [] in
  let msgs := fold_left (fun acc turn =>
                 (acc ++ [message_to_dict (user turn)]) ++ [message_to_dict (assistant turn)])
                 turns msgs in
  VDict [("conversation",
            VDict [("id", VStr conversation_id);
                   ("created_at", VStr (isoformat now));
                   ("metadata", VDict (default [] md))]);
         ("messages", VList msgs)].

(** [doc["messages"]] of a built document. *)
Definition doc_messages (doc : pyval) : list pyval :=
  match doc with
  | VDict d => match dict_get "messages" d with Some (VList l) => l | _ => [] end
  | _ => []
  end.

(** Values [tomli_w] can write: everything here but [None]. *)
Fixpoint toml_ok (v : pyval) : bool :=
  match v with
  | VNone => false
  | VList l => forallb toml_ok l
  | VDict d => forallb (fun kv => toml_ok (snd kv)) d
  | _ => true
  end.

(** A [pathlib.PurePosixPath]: its root ([""], ["/"] or ["//"]) and its
    parts.  Parsing drops empty and ["."] parts; [".."] is kept. *)
Record fspath := FsPath { root : string; parts : list string }.

#[global] Instance fspath_eq_dec : EqDecision fspath.
Proof. solve_decision. Defined.

(** [s.split("/")] *)
Fixpoint split_slash (s : string) : list string :=
  match s with
  | EmptyString => [EmptyString]
  | String c s' =>
      let rest := split_slash s' in
      if Ascii.eqb c "/"%char then EmptyString :: rest
      else match rest with
           | r :: rs => String c r :: rs
           | [] => [String c EmptyString]
           end
  end.

Fixpoint lstrip_slash (s : string) : string :=
  match s with
  | String c s' => if Ascii.eqb c "/"%char then lstrip_slash s' else s
  | EmptyString => EmptyString
  end.

(** [posixpath.splitroot]: exactly two leading slashes are kept as the
    root ["//"]; one, or three and more, give the root ["/"]. *)
Definition splitroot (s : string) : string * string :=
  let rel := lstrip_slash s in
  match (String.length s - String.length rel)%nat with
  | O => ("", s)
  | 2%nat => ("//", rel)
  | _ => ("/", rel)
  end.

(** [PurePosixPath(s)] *)
Definition path_of_string (s : string) : fspath :=
  let '(r, rel) := splitroot s in
  {| root := r;
     parts := List.filter (fun x => negb (String.eqb x "") && negb (String.eqb x "."))
                          (split_slash rel) |}.

(** [p / s]: an absolute [s] replaces [p]. *)
Definition path_div (p : fspath) (s : string) : fspath :=
  let q := path_of_string s in
  if String.eqb (root q) "" then {| root := root p; parts := parts p ++ parts q |} else q.

(** A file: the document [tomli_w.dump] wrote, or the part of it written
    before [dump] raised ([open("wb")] had emptied the file; [dump]
    writes the document piece by piece). *)
Inductive file := Written (doc : pyval) | Partial.

(** The files, latest write first, and what [path.open("wb")] raises at a
    path ([None]: it opens, creating or emptying the file): no parent
    directory, a directory at that path, no permission, ... *)
Record filesystem := {
  files : list (fspath * file);
  open_wb_error : fspath -> option exc
}.

Definition put_file (fs : filesystem) (p : fspath) (f : file) : filesystem :=
  {| files := (p, f) :: files fs; open_wb_error := open_wb_error fs |}.

(** Reading a file back: the latest write to [path] wins. *)
Fixpoint lookup_file (fl : list (fspath * file)) (path : fspath) : option file :=
  match fl with
  | [] => None
  | (p, f) :: fl' => if decide (p = path) then Some f else lookup_file fl' path
  end.

Definition read_file (fs : filesystem) (path : fspath) : option file :=
  lookup_file (files fs) path.

Record TomlLogger := { directory : fspath }.

(** [self._config.directory / f"{conversation_id}.toml"] *)
Definition _file_path (lg : TomlLogger) (conversation_id : string) : fspath :=
  path_div (directory lg) (conversation_id +:+ ".toml").

(** [TomlLogger.write]: the new file system and the returned path. *)
Definition write (lg : TomlLogger) (fs : filesystem) (now : datetime)
  (conversation_id : string) (system : list MessageData) (turns : list ConversationTurn)
  (md : option pydict) : filesystem * (exc + fspath) :=
  let doc := build_doc conversation_id now system turns md in
  let path := _file_path lg conversation_id in
  match open_wb_error fs path with
  | Some e => (fs, inl e)
  | None =>
      if toml_ok doc then (put_file fs path (Written doc), inr path)
      else (put_file fs path Partial, inl TomlTypeError)
  end.

(** Test fixture: a file system where every [open] succeeds. *)
Definition empty_fs : filesystem := {| files := []; open_wb_error := fun _ => None |}.

End Persistence.


(** ** A caller driving a [ConversationManager] *)
Module ManagerRun.
Import Conversation.

(** One call a caller makes on the manager, or on objects of its own. *)
Inductive manager_op :=
| NewDict (d : pydict)                                  (** the caller builds a dict *)
| AddUser (text : string) (md : option loc) (now : datetime)
| AddSystem (text : string) (now : datetime)
| Reply (server : Server) (now : datetime)
| EditSnapshot (ops : list snapshot_op).   (** [h = manager.history()], then [ops] on [h] *)

Definition step (st : ConversationManager) (op : manager_op) : ConversationManager :=
  match op with
  | NewDict d =>
      {| llm := llm st; config := config st; heap := fst (new_obj (heap st) (ODict d));
         messages := messages st |}
  | AddUser text md now => fst (add_user_message st text md now)
  | AddSystem text now => fst (add_system_message st text now)
  | Reply server now => fst (generate_reply st server now)
  | EditSnapshot ops => mutate_snapshot (history st) st ops
  end.

Fixpoint run_manager (st : ConversationManager) (ops : list manager_op) : ConversationManager :=
  match ops with
  | [] => st
  | op :: ops' => run_manager (step st op) ops'
  end.

(** Whether [l] holds a [Message]. *)
Definition is_message (h : store) (l : loc) : bool :=
  match msg_at h l with Some _ => true | None => false end.

Definition is_message_obj (o : obj) : bool :=
  match o with OMessage _ => true | ODict _ => false end.

(** The manager's references are its message objects, in creation order. *)
Definition refs_ok (st : ConversationManager) : Prop :=
  messages st = List.filter (is_message (heap st)) (seq 0%nat (length (heap st))).

(** Test fixture: a server whose answer has no role and reports usage. *)
Definition usage_server : Server :=
  fun _ => HttpResponse 200 (Some (VDict
    [("choices", VList [VDict [("message", VDict [("content", VStr "hi")])]]);
     ("usage", VDict [("total_tokens", VInt 7)])])).

End ManagerRun.

(** ** Opening a microphone ([PyAudioMicrophone.open] in
    [lmwhisper/core/audio.py]) *)
Module MicOpen.
Import Audio.

(** The [pyaudio] installation as [open] sees it: whether the import works,
    whether [pyaudio.PyAudio()] raises, and whether [_pyaudio.open(format,
    channels, rate, frames_per_buffer, input_device_index)] raises. *)
Record pa_env := {
  pyaudio_installed : bool;
  pyaudio_new_error : option exc;
  stream_open_error : handle -> Z -> Z -> Z -> Z -> option Z -> option exc
}.

(** The device resources of the process: the next fresh handle and the
    handles acquired and not yet released. *)
Record world := { next_handle : handle; live : list handle }.

Definition acquire (w : world) : handle * world :=
  (next_handle w, {| next_handle := S (next_handle w); live := live w ++ [next_handle w] |}).

(** [format_map = {"int16": pyaudio.paInt16, "float32": pyaudio.paFloat32}] *)
Definition format_map (f : string) : option Z :=
  if String.eqb f "int16" then Some 8
  else if String.eqb f "float32" then Some 1
  else None.

(** [PyAudioMicrophone.open]: the outcome, the microphone and the world. *)
Definition mic_open (env : pa_env) (w : world) (m : PyAudioMicrophone)
  : (exc + unit) * PyAudioMicrophone * world :=
  if negb (pyaudio_installed env) then
    (inl (RuntimeError "PyAudio is not installed. Install it to use the microphone backend."), m, w)
  else
    match pyaudio_new_error env with
    | Some e => (inl e, m, w)
    | None =>
        let '(p, w1) := acquire w in
        let c := mic_config m in
        let m1 := {| mic_config := c; _pyaudio := Some p; _stream := _stream m |} in
        match format_map (format c) with
        | None => (inl (RuntimeError ("Unsupported audio format: " +:+ format c)), m1, w1)
        | Some fmt =>
            match stream_open_error env p fmt (channels c) (sample_rate c) (chunk_size c)
                    (device_index c) with
            | Some e => (inl e, m1, w1)
            | None =>
                let '(st, w2) := acquire w1 in
                (inr tt, {| mic_config := c; _pyaudio := Some p; _stream := Some st |}, w2)
            end
        end
    end.

(** The handles a run of [close]'s library calls gives back: a stream by a
    [close()] that returns, a [PyAudio] instance by a [terminate()] that
    returns. *)
Definition release (lib : library) (calls : list lib_call) (w : world) : world :=
  {| next_handle := next_handle w;
     live := filter (fun h => forallb (fun c =>
               match c with
               | CloseStream h' | Terminate h' => negb (Nat.eqb h h') || bool_decide (lib c <> None)
               | StopStream _ => true
               end) calls) (live w) |}.

(** [close()] on the microphone, with its effect on the world. *)
Definition mic_close_world (lib : library) (m : PyAudioMicrophone) (w : world)
  : (exc + unit) * PyAudioMicrophone * world :=
  let '(calls, r, m') := mic_close lib m in (r, m', release lib calls w).

(** The first [n] items drawn from [PyAudioMicrophone.chunks()]; [read s i k]
    is the [i]-th [stream.read(k, exception_on_overflow=False)] on stream
    [s].  The generator body runs only when the first item is drawn. *)
Definition mic_chunks (read : handle -> nat -> Z -> bytes) (n : nat) (m : PyAudioMicrophone)
  : exc + list bytes :=
  match n with
  | O => inr []
  | S _ =>
      match _stream m with
      | None => inl (RuntimeError "Microphone stream is not opened")
      | Some s => inr (map (fun i => read s i (chunk_size (mic_config m))) (seq 0 n))
      end
  end.

(** Test fixtures: a working installation and library. *)
Definition working_env : pa_env :=
  {| pyaudio_installed := true; pyaudio_new_error := None;
     stream_open_error := fun _ _ _ _ _ _ => None |}.

Definition working_library : library := fun _ => None.

(** Test fixtures: a configuration asking for a format [open] does not
    know, and a process holding two device handles. *)
Definition int8_config : AudioConfig :=
  {| sample_rate := 16000; chunk_size := 1024; channels := 1;
     format := "int8"; device_index := None |}.

Definition sample_world : world := {| next_handle := 5%nat; live := [1%nat; 3%nat] |}.

End MicOpen.

(** ** Application settings ([lmwhisper/settings.py]) *)
Module Settings.

Definition sum_bind {A B} (m : exc + A) (k : A -> exc + B) : exc + B :=
  match m with inl e => inl e | inr a => k a end.

Notation "'slet' x ':=' m 'in' k" := (sum_bind m (fun x => k))
  (at level 200, x name, m at level 100, k at level 200, right associativity).

(** Python truthiness of a value [tomllib] can produce. *)
Definition truthy (v : pyval) : bool :=
  match v with
  | VNone => false
  | VBool b => b
  | VInt z => negb (Z.eqb z 0)
  | VFloat f => negb (Z.eqb (Z.land (float_bits f) (2 ^ 63 - 1)) 0)
  | VStr s => negb (String.eqb s "")
  | VList l => match l with [] => false | _ => true end
  | VDict d => dict_truthy d
  end.

(** [obj.get(key, default)]: only a [dict] has [.get]. *)
Definition py_get (v : pyval) (k : string) (dflt : pyval) : exc + pyval :=
  match v with
  | VDict d => inr (default dflt (dict_get k d))
  | _ => inl AttributeError
  end.

(** [data.get(key) or {}] *)
Definition section (data : pydict) (k : string) : pyval :=
  match dict_get k data with
  | Some v => if truthy v then v else VDict []
  | None => VDict []
  end.

Definition ALLOWED_WHISPER_MODELS : list string := ["tiny"; "base"; "small"; "medium"; "large"].

(** [value in some_set_of_str]: containers are unhashable. *)
Definition set_contains (xs : list string) (v : pyval) : exc + bool :=
  match v with
  | VList _ | VDict _ => inl TypeError
  | VStr s => inr (existsb (String.eqb s) xs)
  | _ => inr false
  end.

(** [float(n)] for a Python [int]: binary64 round to nearest, ties to even. *)
Definition float_of_int (n : Z) : exc + pyfloat :=
  if Z.eqb n 0 then inr (PyFloat 0)
  else
    let sign := if Z.ltb n 0 then 1 else 0 in
    let a := Z.abs n in
    let e := Z.log2 a in
    let '(q, e') :=
      if Z.leb e 52 then (a * 2 ^ (52 - e), e)
      else
        let sh := e - 52 in
        let q := a / 2 ^ sh in
        let r := a mod 2 ^ sh in
        let half := 2 ^ (sh - 1) in
        let q := if orb (Z.ltb half r) (andb (Z.eqb r half) (Z.odd q)) then q + 1 else q in
        if Z.eqb q (2 ^ 53) then (2 ^ 52, e + 1) else (q, e) in
    if Z.ltb 1023 e' then inl OverflowError
    else inr (PyFloat (sign * 2 ^ 63 + (e' + 1023) * 2 ^ 52 + (q - 2 ^ 52))).

(** [float(v)]; [float_of_str] is Python's parsing of a [str]. *)
Definition py_float (float_of_str : string -> exc + pyfloat) (v : pyval) : exc + pyfloat :=
  match v with
  | VFloat f => inr f
  | VBool b => inr (PyFloat (if b then 4607182418800017408 else 0))
  | VInt n => float_of_int n
  | VStr s => float_of_str s
  | _ => inl TypeError
  end.

(** [Path(v)], kept as the string it is built from. *)
Definition py_path (v : pyval) : exc + string :=
  match v with VStr s => inr s | _ => inl TypeError end.

Record WhisperSettings := { whisper_model : pyval }.

Record LMStudioSettings := {
  base_url : pyval;
  lm_model : pyval;
  temperature : pyfloat;
  max_tokens : pyval
}.

Record LoggingSettings := { output_dir : string }.

Record AppSettings := {
  whisper : WhisperSettings;
  lmstudio : LMStudioSettings;
  logging : LoggingSettings
}.

(** 0.7 as a binary64 *)
Definition float_0_7 : pyfloat := PyFloat 4604480259023595110.

(** [AppSettings.from_mapping(data)] *)
Definition from_mapping (float_of_str : string -> exc + pyfloat) (data : pydict)
  : exc + AppSettings :=
  let whisper_data := section data "whisper" in
  let lmstudio_data := section data "lmstudio" in
  let logging_data := section data "logging" in
  slet wm := py_get whisper_data "model" (VStr "small") in
  slet allowed := set_contains ALLOWED_WHISPER_MODELS wm in
  if negb allowed then inl ValueError
  else
    slet url := py_get lmstudio_data "base_url" (VStr "http://localhost:1234/v1") in
    slet model := py_get lmstudio_data "model" (VStr "lmstudio") in
    slet t := py_get lmstudio_data "temperature" (VFloat float_0_7) in
    slet temp := py_float float_of_str t in
    slet mt := py_get lmstudio_data "max_tokens" VNone in
    slet od := py_get logging_data "output_dir" (VStr "logs") in
    slet dir := py_path od in
    inr {| whisper := {| whisper_model := wm |};
           lmstudio := {| base_url := url; lm_model := model; temperature := temp; max_tokens := mt |};
           logging := {| output_dir := dir |} |}.

(** Test fixture: a [str] parser that accepts nothing. *)
Definition no_float_of_str : string -> exc + pyfloat := fun _ => inl ValueError.

End Settings.

(** ** Test fixture: raw 16-bit little-endian PCM *)
Module PCM.
Import Transcription.

(** The bytes of [np.array(samples, dtype="<i2").tobytes()]. *)
Definition pcm16 (samples : list Z) : bytes :=
  concat (map (fun s => enc_u16 (s mod 65536)) samples).

End PCM.

(** * Proofs *)

Module AudioProofs.
Import Audio.

Lemma ceil_div_succ (d c : nat) :
  (0 < c)%nat -> (0 < d)%nat -> ((d + c - 1) / c = S ((d - c + c - 1) / c))%nat.
Proof.
  intros Hc Hd.
  destruct (Nat.le_gt_cases c d) as [Hle | Hlt].
  - replace (d + c - 1)%nat with ((d - c + c - 1) + 1 * c)%nat by lia.
    rewrite Nat.div_add by lia. lia.
  - replace (d - c + c - 1)%nat with (c - 1)%nat by lia.
    rewrite (Nat.div_small (c - 1)) by lia.
    replace (d + c - 1)%nat with ((d - 1) + 1 * c)%nat by lia.
    rewrite Nat.div_add by lia. rewrite Nat.div_small by lia. lia.
Qed.

Lemma range_pos_spec (c N : nat) :
  (0 < c)%nat -> forall fuel k, (N - k <= fuel)%nat ->
  range_pos fuel k N c = map (fun j => k + j * c)%nat (seq 0 ((N - k + c - 1) / c)).
Proof.
  intros Hc fuel. induction fuel as [|fuel IH]; intros k Hk.
  - simpl. replace (N - k + c - 1)%nat with (c - 1)%nat by lia.
    rewrite Nat.div_small by lia. reflexivity.
  - simpl. destruct (Nat.ltb_spec k N) as [Hlt | Hge].
    + rewrite IH by lia. rewrite (ceil_div_succ (N - k) c) by lia.
      replace (N - k - c)%nat with (N - (k + c))%nat by lia.
      simpl. f_equal; [lia|].
      rewrite <- seq_shift, map_map. apply map_ext. intros j. lia.
    + replace (N - k + c - 1)%nat with (c - 1)%nat by lia.
      rewrite Nat.div_small by lia. reflexivity.
Qed.

Lemma lookup_map' {A B} (f : A -> B) (l : list A) (i : nat) :
  map f l !! i = f <$> (l !! i).
Proof. revert i; induction l as [|x l IH]; intros [|i]; simpl; auto. Qed.

Lemma file_chunks_eq (s : FileAudioStream) :
  0 < chunk_size (file_config s) ->
  let c := Z.to_nat (chunk_size (file_config s)) in
  file_chunks s =
    inr (map (fun j => take c (drop (j * c) (_data s)))
             (seq 0 ((length (_data s) + c - 1) / c))).
Proof.
  intros Hpos c. unfold file_chunks.
  destruct (Z.eqb_spec (chunk_size (file_config s)) 0) as [E|_]; [lia|].
  destruct (Z.ltb_spec (chunk_size (file_config s)) 0) as [E|_]; [lia|].
  fold c. rewrite (range_pos_spec c (length (_data s))) by lia.
  rewrite map_map. rewrite Nat.sub_0_r. f_equal. apply map_ext. intros j.
  unfold slice. f_equal. lia.
Qed.

Lemma ceil_lt_iff (j N c : nat) : (0 < c)%nat -> (j < (N + c - 1) / c <-> j * c < N)%nat.
Proof.
  intros Hc.
  pose proof (Nat.div_mod_eq (N + c - 1) c) as Hd.
  pose proof (Nat.mod_upper_bound (N + c - 1) c ltac:(lia)) as Hm.
  set (q := ((N + c - 1) / c)%nat) in *. set (r := ((N + c - 1) mod c)%nat) in *.
  split; intros H.
  - assert (S j <= q)%nat by lia. nia.
  - destruct (Nat.lt_ge_cases j q) as [|Hge]; [lia|]. nia.
Qed.

(** Claim C6.  For a [FileAudioStream] over [N] bytes with chunk size
    [C > 0], [chunks()] yields [ceil(N/C) = (N+C-1)/C] chunks, each of [C]
    bytes except the last, which has [N mod C] bytes when that is non-zero;
    the sequence depends only on the buffer and the chunk size, so a second
    call yields the same chunks. *)
Theorem file_chunks_count_and_sizes (data : bytes) (cfg : AudioConfig)
  (Hc : 0 < chunk_size cfg) :
  let C := Z.to_nat (chunk_size cfg) in
  let N := length data in
  exists cs : list bytes,
    file_chunks (file_init data cfg) = inr cs /\
    length cs = ((N + C - 1) / C)%nat /\
    (forall j ch, cs !! j = Some ch -> (S j < length cs)%nat -> length ch = C) /\
    (forall ch, last cs = Some ch ->
       length ch = if Nat.eqb (N mod C) 0 then C else (N mod C)%nat) /\
    (forall s' : FileAudioStream, _data s' = data ->
       chunk_size (file_config s') = chunk_size cfg -> file_chunks s' = inr cs).
Proof.
  intros C N.
  assert (HC : (0 < C)%nat) by (subst C; lia).
  eexists. split; [apply file_chunks_eq; exact Hc|].
  simpl. fold C. fold N.
  split; [by rewrite length_map, length_seq|].
  split; [|split].
  - intros j ch Hj Hlt. rewrite lookup_map' in Hj.
    rewrite length_map, length_seq in Hlt.
    destruct (seq 0 _ !! j) as [j'|] eqn:E; [|discriminate].
    apply lookup_seq in E as [-> _]. simpl in Hj. injection Hj as <-.
    apply ceil_lt_iff in Hlt; [|lia].
    rewrite length_take, length_drop. fold N. nia.
  - intros ch Hl. rewrite last_lookup, lookup_map', length_map, length_seq in Hl.
    set (q := ((N + C - 1) / C)%nat) in *.
    destruct (seq 0 q !! pred q) as [j'|] eqn:E; [|discriminate].
    apply lookup_seq in E as [-> Hq]. simpl in Hl. injection Hl as <-.
    assert (Hin : (pred q * C < N)%nat) by (apply ceil_lt_iff; lia).
    assert (Hout : ~ (q * C < N)%nat) by (rewrite <- ceil_lt_iff; lia).
    rewrite length_take, length_drop. fold N.
    assert (q = S (pred q)) as Eq by lia.
    destruct (Nat.eqb_spec (N mod C) 0) as [Hz|Hnz].
    + pose proof (Nat.div_mod_eq N C) as HN. rewrite Hz in HN.
      set (k := (N / C)%nat) in *.
      assert (pred q < k)%nat by (destruct (Nat.lt_ge_cases (pred q) k); [lia|nia]).
      assert (k <= q)%nat by (destruct (Nat.le_gt_cases k q); [lia|nia]).
      nia.
    + assert (Hle : (N - pred q * C <= C)%nat) by nia.
      assert (Hne : (N - pred q * C <> C)%nat).
      { intros Heq. apply Hnz. replace N with (q * C)%nat by nia.
        apply Nat.Div0.mod_mul. }
      rewrite Nat.min_r by lia.
      apply (Nat.mod_unique N C (pred q)); nia.
  - intros s' Hd Hcs. rewrite file_chunks_eq by lia. rewrite Hd, Hcs. reflexivity.
Qed.

Lemma concat_chunks_from (data : bytes) (c : nat) :
  forall m k,
  concat (map (fun j => take c (drop (j * c) data)) (seq k m)) =
  take (m * c) (drop (k * c) data).
Proof.
  induction m as [|m IH]; intros k; [reflexivity|].
  cbn [seq map concat]. rewrite IH.
  replace (S m * c)%nat with (c + m * c)%nat by lia.
  rewrite <- take_take_drop, drop_drop.
  do 3 f_equal. lia.
Qed.

(** Claim C10.  For chunk size [C > 0], the chunks of a [FileAudioStream]
    concatenate back to its buffer, byte for byte. *)
Theorem file_chunks_concat (data : bytes) (cfg : AudioConfig)
  (Hc : 0 < chunk_size cfg) :
  exists cs, file_chunks (file_init data cfg) = inr cs /\ concat cs = data.
Proof.
  eexists. split; [apply file_chunks_eq; exact Hc|]. simpl.
  rewrite concat_chunks_from. simpl.
  set (c := Z.to_nat (chunk_size cfg)).
  assert (Hc' : (0 < c)%nat) by (subst c; lia).
  apply take_ge.
  pose proof (Nat.div_mod_eq (length data + c - 1) c).
  pose proof (Nat.mod_upper_bound (length data + c - 1) c ltac:(lia)).
  nia.
Qed.

Lemma close_closed_noop (lib : library) (s : AudioSource) :
  is_closed s -> close lib s = ([], inr tt, s).
Proof.
  destruct s as [m|f]; simpl; [|reflexivity].
  intros [Hp Hs]. unfold mic_close. rewrite Hs. simpl. rewrite Hp. reflexivity.
Qed.

Lemma close_success_closed (lib : library) (s s' : AudioSource) calls :
  close lib s = (calls, inr tt, s') -> is_closed s'.
Proof.
  destruct s as [m|f]; simpl.
  - destruct (mic_close lib m) as [[calls0 r] m'] eqn:E.
    intros H; injection H as -> -> <-. simpl.
    unfold mic_close in E. destruct m as [cfg p st]; simpl in E.
    destruct st as [h|].
    + destruct (lib (StopStream h)); [inversion E|].
      destruct (lib (CloseStream h)); [inversion E|]. simpl in E.
      destruct p as [p|]; simpl in E; [destruct (lib (Terminate p))|];
        inversion E; subst; simpl; auto.
    + destruct p as [p|]; simpl in E; [destruct (lib (Terminate p))|];
        inversion E; subst; simpl; auto.
  - intros H. injection H; intros; subst; exact I.
Qed.

(** Claim C8.  [close()] on a source as its constructor left it, or on a
    source whose previous [close()] returned normally, makes no library call,
    returns normally, changes nothing and leaves the source closed. *)
Theorem close_idempotent (lib : library) (s : AudioSource)
  (H : freshly_constructed s \/
       exists (lib0 : library) (s0 : AudioSource) calls, close lib0 s0 = (calls, inr tt, s)) :
  close lib s = ([], inr tt, s) /\ is_closed s.
Proof.
  assert (Hc : is_closed s).
  { destruct H as [Hf | (lib0 & s0 & calls & Hcl)].
    - destruct s as [m|f]; simpl in *; [rewrite Hf; simpl; auto | exact I].
    - eapply close_success_closed; eauto. }
  split; [apply close_closed_noop|]; exact Hc.
Qed.

(** An instance of claim C6: five bytes in chunks of two make three chunks. *)
Lemma file_chunks_count_and_sizes_witness :
  0 < chunk_size two_byte_chunks /\
  exists cs, file_chunks (file_init [x01; x02; x03; x04; x05] two_byte_chunks) = inr cs
             /\ length cs = 3%nat.
Proof.
  split; [reflexivity|].
  destruct (file_chunks_count_and_sizes [x01; x02; x03; x04; x05] two_byte_chunks
              ltac:(reflexivity)) as (cs & H1 & H2 & _).
  exists cs. split; [exact H1|exact H2].
Defined.

(** An instance of claim C10. *)
Lemma file_chunks_concat_witness :
  0 < chunk_size two_byte_chunks /\
  exists cs, file_chunks (file_init [x01; x02; x03; x04; x05] two_byte_chunks) = inr cs
             /\ concat cs = [x01; x02; x03; x04; x05].
Proof.
  split; [reflexivity|].
  apply file_chunks_concat. reflexivity.
Defined.

(** An instance of claim C8: closing a microphone that was never opened
    makes no call, even to a library that would raise. *)
Lemma close_idempotent_witness :
  freshly_constructed (Mic (mic_init default_config)) /\
  close failing_library (Mic (mic_init default_config)) = ([], inr tt, Mic (mic_init default_config)) /\
  is_closed (Mic (mic_init default_config)).
Proof.
  split; [reflexivity|].
  apply close_idempotent. left. reflexivity.
Defined.

End AudioProofs.

Module TranscriptionProofs.
Import Transcription.

Lemma byte_val_of_Z (z : Z) : byte_val (byte_of_Z z) = z mod 256.
Proof.
  unfold byte_val, byte_of_Z.
  destruct (Byte.of_N (Z.to_N (z mod 256))) as [bt|] eqn:E.
  - apply Byte.to_of_N in E. rewrite E. rewrite Z2N.id; [reflexivity|].
    pose proof (Z.mod_pos_bound z 256). lia.
  - apply Byte.of_N_None_iff in E. pose proof (Z.mod_pos_bound z 256). lia.
Qed.

Lemma le_u16_enc (n : Z) (r : bytes) : 0 <= n < 65536 ->
  le_u16 (byte_of_Z n :: byte_of_Z (n / 256) :: r) = n.
Proof. intros H. simpl. rewrite !byte_val_of_Z. Z.div_mod_to_equations. lia. Qed.

Lemma le_u32_enc (n : Z) (r : bytes) : 0 <= n < 4294967296 ->
  le_u32 (byte_of_Z n :: byte_of_Z (n / 256) :: byte_of_Z (n / 65536)
          :: byte_of_Z (n / 16777216) :: r) = n.
Proof. intros H. simpl. rewrite !byte_val_of_Z. Z.div_mod_to_equations. lia. Qed.

Lemma transcribe_nonempty (cl : LocalWhisperClient) (chunks : list bytes) (lang : option string) :
  concat chunks <> [] ->
  transcribe cl chunks lang =
    (tlet r := load_samples cl (concat chunks) in run_engine cl (fst r) (snd r) lang).
Proof. intros H. unfold transcribe. destruct (concat chunks); [congruence|reflexivity]. Qed.








Lemma startswith_nonempty (d p : bytes) : p <> [] -> startswith d p = true -> d <> [].
Proof. intros Hp Hs. destruct p as [|x p]; [congruence|]. destruct d; [discriminate|]. discriminate. Qed.

(** [transcribe] on a buffer starting with ["RIFF"] that [wave] opens. *)
Lemma transcribe_riff cl chunks lang w
  (Hr : startswith (concat chunks) (bstr "RIFF") = true)
  (Hw : Wave.wave_open (concat chunks) = inr w) :
  transcribe cl chunks lang =
    if negb (Z.eqb (Wave.getsampwidth w) 2)
    then ([], inl (RuntimeError_SampleWidth (Wave.getsampwidth w * 8)))
    else tbind (tlift (frombuffer_int16 (Wave.readframes w (Wave.getnframes w))))
               (fun a => run_engine cl (Wave.getframerate w) a lang).
Proof.
  rewrite transcribe_nonempty by (apply (startswith_nonempty _ (bstr "RIFF")); [vm_compute; discriminate|exact Hr]).
  unfold load_samples. rewrite Hr, Hw. cbn [tlift tbind].
  destruct (negb _); [reflexivity|].
  destruct (frombuffer_int16 _) as [e|a]; [reflexivity|].
  cbn [tbind tret tlift app fst snd]. destruct (run_engine _ _ _ _); reflexivity.
Qed.


(** Claim C1.  When the chunks concatenate to the empty buffer,
    [transcribe] returns a result with empty text and no segments, and
    makes no engine call. *)
Lemma transcribe_empty_no_engine cl chunks lang (H : concat chunks = []) :
  exists r, transcribe cl chunks lang = ([], inr r) /\ text r = "" /\ segments r = [].
Proof. exists empty_result. unfold transcribe. rewrite H. auto. Qed.

(** An instance of claim C1: two empty chunks. *)
Lemma transcribe_empty_no_engine_witness :
  concat ([[]; []] : list bytes) = [] /\
  exists r, transcribe sample_client [[]; []] (Some "en") = ([], inr r) /\ text r = "" /\ segments r = [].
Proof. split; [reflexivity|]. apply transcribe_empty_no_engine. reflexivity. Defined.



End TranscriptionProofs.

Module ConversationProofs.
Import Conversation.

Lemma lookup_app_last {A} (l : list A) (x : A) : (l ++ [x]) !! length l = Some x.
Proof. rewrite lookup_app_r by lia. rewrite Nat.sub_diag. reflexivity. Qed.

Lemma new_message_spec h v :
  new_message h v =
    (h ++ [ODict (msg_metadata v);
           OMessage {| role := msg_role v; content := msg_content v;
                       timestamp := msg_timestamp v; metadata := length h |}],
     S (length h)).
Proof.
  unfold new_message, new_obj. rewrite <- app_assoc, length_app, Nat.add_1_r. reflexivity.
Qed.

Lemma lookup_app_two {A} (l : list A) (x y : A) :
  (l ++ [x; y]) !! length l = Some x /\ (l ++ [x; y]) !! S (length l) = Some y.
Proof.
  split; rewrite lookup_app_r by lia; [rewrite Nat.sub_diag|rewrite Nat.sub_succ_l, Nat.sub_diag by lia];
    reflexivity.
Qed.

Lemma read_new_message h v :
  read_message (fst (new_message h v)) (snd (new_message h v)) = Some v.
Proof.
  rewrite new_message_spec. unfold fst, snd.
  destruct (lookup_app_two h (ODict (msg_metadata v))
              (OMessage {| role := msg_role v; content := msg_content v;
                           timestamp := msg_timestamp v; metadata := length h |})) as [E1 E2].
  unfold read_message, msg_at, dict_at, loc in *. rewrite E2. cbn [metadata]. rewrite E1.
  destruct v; reflexivity.
Qed.

Lemma add_user_message_spec st text md now st1 u :
  add_user_message st text md now = (st1, u) ->
  u = length (fst (metadata_or_empty (heap st) md)) /\
  heap st1 = fst (metadata_or_empty (heap st) md) ++
             [OMessage {| role := VStr "user"; content := VStr text; timestamp := now;
                          metadata := snd (metadata_or_empty (heap st) md) |}] /\
  messages st1 = messages st ++ [u] /\ llm st1 = llm st /\ config st1 = config st.
Proof.
  unfold add_user_message. destruct (metadata_or_empty (heap st) md) as [h1 d]. simpl.
  intros H. injection H as <- <-. simpl. auto.
Qed.

(** Claim C2.  [add_user_message(text)] then a [generate_reply()] that
    returns normally leave [history()] with exactly two more references: the
    new user message (whose [metadata] is the object [metadata or {}]
    gives) then the message [generate_reply()] returned, which holds what
    the backend produced. *)
Lemma reply_appends_user_then_assistant st text md now server now' st1 u st2 a
  (H1 : add_user_message st text md now = (st1, u))
  (H2 : generate_reply st1 server now' = (st2, inr a)) :
  history st2 = history st ++ [u; a] /\
  msg_at (heap st2) u = Some {| role := VStr "user"; content := VStr text; timestamp := now;
                                metadata := snd (metadata_or_empty (heap st) md) |} /\
  exists v, generate (llm st) server (deref (heap st1) (messages st1)) (Some (config st)) now' = inr v
            /\ read_message (heap st2) a = Some v.
Proof.
  apply add_user_message_spec in H1 as (-> & Hh & Hm & Hl & Hc).
  unfold generate_reply in H2. rewrite Hl, Hc in *.
  destruct (generate (llm st) server (deref (heap st1) (messages st1)) (Some (config st)) now')
    as [e|v] eqn:E; [discriminate|].
  pose proof (read_new_message (heap st1) v) as Hr.
  destruct (new_message (heap st1) v) as [h2 l] eqn:En. simpl in Hr.
  unfold append_message in H2. injection H2 as <- <-.
  unfold history; simpl. rewrite Hm, <- app_assoc. split; [reflexivity|]. split.
  - rewrite new_message_spec in En. injection En as <- _.
    assert (Hlt : (length (fst (metadata_or_empty (heap st) md)) < length (heap st1))%nat).
    { rewrite Hh, length_app. cbn [length]. lia. }
    unfold msg_at, loc. rewrite lookup_app_l by exact Hlt.
    rewrite Hh. rewrite lookup_app_last. reflexivity.
  - exists v. split; [reflexivity|exact Hr].
Qed.

(** Claim C3.  After [add_user_message(text)], if the request fails in
    transport or gets a status outside 200-299, [generate_reply()] raises one
    of the [httpx.HTTPError] exceptions making up [CompletionFailed] and leaves
    the manager unchanged: the history still ends with the user message and
    holds no new assistant message. *)
Lemma failed_reply_keeps_user st text md now server now' st1 u
  (H1 : add_user_message st text md now = (st1, u))
  (Hf : match server (build_payload (llm st1) (deref (heap st1) (messages st1)) (config st1)) with
        | TransportError => True
        | HttpResponse status _ => ~ (200 <= status < 300)
        end) :
  exists e, generate_reply st1 server now' = (st1, inl e) /\ completion_failed e = true /\
  history st1 = history st ++ [u] /\
  exists m, msg_at (heap st1) u = Some m /\ role m = VStr "user" /\ content m = VStr text.
Proof.
  pose proof H1 as H1'. apply add_user_message_spec in H1' as (Hu & Hh & Hm & _ & _).
  assert (Hmsg : exists m, msg_at (heap st1) u = Some m /\ role m = VStr "user" /\
                           content m = VStr text).
  { eexists. unfold msg_at, loc. rewrite Hh, Hu, lookup_app_last.
    split; [reflexivity|]. split; reflexivity. }
  unfold generate_reply, generate. simpl.
  destruct (server (build_payload (llm st1) (deref (heap st1) (messages st1)) (config st1)))
    as [|status body] eqn:E.
  - eexists. split; [reflexivity|]. split; [reflexivity|]. split; [exact Hm|exact Hmsg].
  - assert (Hs : negb (Z.leb 200 status && Z.ltb status 300) = true).
    { destruct (Z.leb_spec 200 status), (Z.ltb_spec status 300); simpl; auto; lia. }
    rewrite Hs. eexists. split; [reflexivity|]. split; [reflexivity|].
    split; [exact Hm|exact Hmsg].
Qed.

(** Claim C4 (amended).  The request's [messages] are the history as
    role/content entries, preceded by a system entry whenever the configured
    [system_prompt] is a non-empty string, whatever the history starts with. *)
Lemma payload_messages c msgs cfg :
  dict_get "messages" (build_payload c msgs cfg) =
  Some (VList ((match prompt_truthy (system_prompt cfg) with
                | Some p => [VDict [("role", VStr "system"); ("content", VStr p)]]
                | None => []
                end) ++ map chat_entry msgs)).
Proof.
  unfold build_payload.
  destruct (max_tokens cfg), (prompt_truthy (system_prompt cfg)); reflexivity.
Qed.

(** Claim C4, counterexample.  A conversation set up as [cli.chat] does it,
    with the prompt both added as a system message and configured as
    [system_prompt], sends the system prompt twice. *)
Lemma cli_system_prompt_sent_twice :
  let cfg := {| temperature := PyFloat 4604480259023595110; max_tokens := None;
                system_prompt := Some "Be brief." |} in
  let st := fst (add_system_message (new_manager {| _model := "local" |} cfg) "Be brief." t0) in
  dict_get "messages" (build_payload (llm st) (deref (heap st) (messages st)) (config st)) =
  Some (VList [VDict [("role", VStr "system"); ("content", VStr "Be brief.")];
               VDict [("role", VStr "system"); ("content", VStr "Be brief.")]]).
Proof. vm_compute. reflexivity. Qed.

(** Snapshots *)
Lemma mutate_snapshot_messages snap st ops :
  let st' := mutate_snapshot snap st ops in
  messages st' = messages st /\ llm st' = llm st /\ config st' = config st.
Proof.
  revert st. induction ops as [|op ops IH]; intros st; simpl; [auto|].
  destruct (apply_snapshot_op snap (heap st) op) as [e|h']; [auto|].
  destruct (IH {| llm := llm st; config := config st; heap := h'; messages := messages st |})
    as (Hm & Hl & Hc). simpl in *. auto.
Qed.

Lemma mutate_snapshot_one snap st op :
  heap (mutate_snapshot snap st [op]) =
    match apply_snapshot_op snap (heap st) op with inl _ => heap st | inr h' => h' end.
Proof. simpl. destruct (apply_snapshot_op snap (heap st) op); reflexivity. Qed.

Lemma msg_at_lt h l m : msg_at h l = Some m -> (l < length h)%nat.
Proof.
  unfold msg_at. destruct (h !! l) as [o|] eqn:E; [|discriminate].
  intros _. eapply lookup_lt_Some. exact E.
Qed.

Lemma msg_at_insert_eq h l m m' :
  msg_at h l = Some m -> msg_at (<[l := OMessage m']> h) l = Some m'.
Proof.
  intros H. unfold msg_at, loc in *. rewrite list_lookup_insert_eq; [reflexivity|].
  eapply msg_at_lt. exact H.
Qed.

(** Claim C9 (amended).  [history()] returns the live message references in
    order, and whatever a caller does through the returned tuple, the next
    [history()] holds the same references in the same order.  The objects
    behind them are shared, though: assigning [role], [content] or
    [metadata] of [h[i]] changes that live message, and [h[i].metadata[k] = v]
    changes its metadata dict, as seen by every message (and every caller)
    that refers to that dict. *)
Lemma history_snapshot_sequence st ops :
  history (mutate_snapshot (history st) st ops) = history st /\
  forall i l m, history st !! i = Some l -> msg_at (heap st) l = Some m ->
    let after op := heap (mutate_snapshot (history st) st [op]) in
    (forall v, msg_at (after (SetRole i v)) l =
       Some {| role := v; content := content m; timestamp := timestamp m; metadata := metadata m |}) /\
    (forall v, msg_at (after (SetContent i v)) l =
       Some {| role := role m; content := v; timestamp := timestamp m; metadata := metadata m |}) /\
    (forall r, msg_at (after (SetMetadata i r)) l =
       Some {| role := role m; content := content m; timestamp := timestamp m; metadata := r |}) /\
    (forall k v d, dict_at (heap st) (metadata m) = Some d ->
       msg_at (after (MetadataSetItem i k v)) l = Some m /\
       dict_at (after (MetadataSetItem i k v)) (metadata m) = Some (dict_set k v d) /\
       forall l' m', msg_at (heap st) l' = Some m' -> metadata m' = metadata m ->
         read_message (after (MetadataSetItem i k v)) l' =
           Some {| msg_role := role m'; msg_content := content m'; msg_timestamp := timestamp m';
                   msg_metadata := dict_set k v d |}).
Proof.
  split; [apply mutate_snapshot_messages|].
  intros i l m Hi Hl after. unfold after. cbv beta.
  assert (Hop : forall op, op_index op = i ->
            heap (mutate_snapshot (history st) st [op]) =
              match apply_snapshot_op (history st) (heap st) op with
              | inl _ => heap st | inr h' => h' end).
  { intros op _. apply mutate_snapshot_one. }
  split; [intros v; rewrite Hop by reflexivity; unfold apply_snapshot_op; cbn [op_index];
          rewrite Hi, Hl; eapply msg_at_insert_eq; exact Hl|].
  split; [intros v; rewrite Hop by reflexivity; unfold apply_snapshot_op; cbn [op_index];
          rewrite Hi, Hl; eapply msg_at_insert_eq; exact Hl|].
  split; [intros r; rewrite Hop by reflexivity; unfold apply_snapshot_op; cbn [op_index];
          rewrite Hi, Hl; eapply msg_at_insert_eq; exact Hl|].
  intros k v d Hd. rewrite Hop by reflexivity. unfold apply_snapshot_op. cbn [op_index].
  rewrite Hi, Hl, Hd.
  assert (Hdl : (metadata m < length (heap st))%nat).
  { unfold dict_at in Hd. destruct (heap st !! metadata m) eqn:E; [|discriminate].
    eapply lookup_lt_Some. exact E. }
  assert (Hne : forall l', msg_at (heap st) l' <> None -> l' <> metadata m).
  { intros l' Hm' ->. unfold msg_at, dict_at in *.
    destruct (heap st !! metadata m) as [[]|]; congruence. }
  split; [|split].
  - unfold msg_at, loc in *. rewrite list_lookup_insert_ne; [exact Hl|].
    intros E. apply (Hne l); [unfold msg_at; rewrite Hl; discriminate|]. symmetry. exact E.
  - unfold dict_at. rewrite list_lookup_insert_eq by exact Hdl. reflexivity.
  - intros l' m' Hm' Hmd. unfold read_message.
    assert (Hm'' : msg_at (<[metadata m := ODict (dict_set k v d)]> (heap st)) l' = Some m').
    { unfold msg_at, loc in *. rewrite list_lookup_insert_ne; [exact Hm'|].
      intros E. apply (Hne l'); [unfold msg_at; rewrite Hm'; discriminate|]. symmetry. exact E. }
    rewrite Hm'', Hmd. unfold dict_at. rewrite list_lookup_insert_eq by exact Hdl. reflexivity.
Qed.

(** Claim C9, counterexample.  Assigning [content] on an element of the
    tuple returned by [history()] changes what the next [history()] holds,
    and setting an item of its metadata changes the dict the caller passed
    to [add_user_message]. *)
Lemma history_snapshot_shares_messages :
  let st := fst (add_user_message
                   (new_manager_in [ODict [("tag", VStr "a")]] {| _model := "local" |}
                      default_generation_config)
                   "hello" (Some 0%nat) t0) in
  let st' := mutate_snapshot (history st) st
               [SetContent 0 (VStr "edited"); MetadataSetItem 0 "tag" (VStr "b")] in
  history st' = history st /\
  deref (heap st') (history st') <> deref (heap st) (history st) /\
  dict_at (heap st) 0%nat = Some [("tag", VStr "a")] /\
  dict_at (heap st') 0%nat = Some [("tag", VStr "b")].
Proof. vm_compute. split; [reflexivity|]. split; [|split; reflexivity]. intros H. inversion H. Qed.

(** An instance of claim C2. *)
Lemma reply_appends_user_then_assistant_witness :
  history (fst (generate_reply
    (fst (add_user_message (new_manager {| _model := "local" |} default_generation_config) "hello" None t0))
    ok_server t0)) = [1%nat; 3%nat].
Proof.
  destruct (reply_appends_user_then_assistant
    (new_manager {| _model := "local" |} default_generation_config) "hello" None t0 ok_server t0
    (fst (add_user_message (new_manager {| _model := "local" |} default_generation_config) "hello" None t0)) 1%nat
    (fst (generate_reply
       (fst (add_user_message (new_manager {| _model := "local" |} default_generation_config) "hello" None t0))
       ok_server t0)) 3%nat ltac:(reflexivity) ltac:(reflexivity)) as [H _].
  exact H.
Defined.

(** An instance of claim C3: the server answers 503. *)
Lemma failed_reply_keeps_user_witness :
  exists e,
    generate_reply (fst (add_user_message (new_manager {| _model := "local" |} default_generation_config) "hello" None t0))
      down_server t0 =
    (fst (add_user_message (new_manager {| _model := "local" |} default_generation_config) "hello" None t0), inl e) /\
    completion_failed e = true.
Proof.
  destruct (failed_reply_keeps_user
    (new_manager {| _model := "local" |} default_generation_config) "hello" None t0 down_server t0
    (fst (add_user_message (new_manager {| _model := "local" |} default_generation_config) "hello" None t0)) 1%nat
    ltac:(reflexivity) ltac:(simpl; lia)) as (e & H1 & H2 & _).
  exists e. split; [exact H1|exact H2].
Defined.

(** An instance of claim C9 (amended): the caller's dict is given to two
    user messages; setting an item of the first one's metadata through the
    snapshot shows in the second. *)
Lemma history_snapshot_sequence_witness :
  let st := fst (add_user_message
              (fst (add_user_message
                 (new_manager_in [ODict [("tag", VStr "a")]] {| _model := "local" |}
                    default_generation_config) "a" (Some 0%nat) t0))
              "b" (Some 0%nat) t0) in
  history st = [1%nat; 2%nat] /\
  read_message (heap (mutate_snapshot (history st) st [MetadataSetItem 0 "tag" (VStr "b")])) 2%nat =
    Some {| msg_role := VStr "user"; msg_content := VStr "b"; msg_timestamp := t0;
            msg_metadata := dict_set "tag" (VStr "b") [("tag", VStr "a")] |}.
Proof.
  intros st. split; [reflexivity|].
  destruct (history_snapshot_sequence st []) as [_ H].
  destruct (H 0%nat 1%nat {| role := VStr "user"; content := VStr "a"; timestamp := t0;
                             metadata := 0%nat |} eq_refl eq_refl) as (_ & _ & _ & H4).
  destruct (H4 "tag" (VStr "b") [("tag", VStr "a")] eq_refl) as (_ & _ & H5).
  exact (H5 2%nat {| role := VStr "user"; content := VStr "b"; timestamp := t0;
                     metadata := 0%nat |} eq_refl eq_refl).
Defined.

End ConversationProofs.

Module PersistenceProofs.
Import Conversation Persistence.

Lemma fold_system (f : MessageData -> pyval) (l : list MessageData) acc :
  fold_left (fun acc m => acc ++ [f m]) l acc = acc ++ map f l.
Proof.
  revert acc. induction l as [|x l IH]; intros acc; simpl.
  - rewrite app_nil_r. reflexivity.
  - rewrite IH, <- app_assoc. reflexivity.
Qed.

Lemma fold_turns (f : MessageData -> pyval) (l : list ConversationTurn) acc :
  fold_left (fun acc t => (acc ++ [f (user t)]) ++ [f (assistant t)]) l acc =
  acc ++ concat (map (fun t => [f (user t); f (assistant t)]) l).
Proof.
  revert acc. induction l as [|x l IH]; intros acc; simpl.
  - rewrite app_nil_r. reflexivity.
  - rewrite IH, <- !app_assoc. reflexivity.
Qed.

Lemma read_put_file fs p f : read_file (put_file fs p f) p = Some f.
Proof. unfold read_file, put_file. simpl. rewrite decide_True by reflexivity. reflexivity. Qed.

(** Claim C7.  The document [TomlLogger.write] builds lists the system
    messages in order, then each turn's user and assistant messages in turn
    order; when [write] returns a path, that path is [_file_path] of the id
    and the file there holds the document.  With one system message and two
    turns the list is exactly five entries in the order system, user 1,
    assistant 1, user 2, assistant 2. *)
Lemma write_document_order lg fs now conversation_id system turns md :
  let doc := build_doc conversation_id now system turns md in
  doc_messages doc =
    map message_to_dict system ++
    concat (map (fun t => [message_to_dict (user t); message_to_dict (assistant t)]) turns) /\
  (forall fs' p, write lg fs now conversation_id system turns md = (fs', inr p) ->
     p = _file_path lg conversation_id /\ read_file fs' p = Some (Written doc)) /\
  (forall s t1 t2,
     doc_messages (build_doc conversation_id now [s] [t1; t2] md) =
     [message_to_dict s; message_to_dict (user t1); message_to_dict (assistant t1);
      message_to_dict (user t2); message_to_dict (assistant t2)]).
Proof.
  split; [|split].
  - unfold build_doc, doc_messages. simpl. rewrite fold_turns, fold_system. reflexivity.
  - intros fs' p. unfold write.
    destruct (open_wb_error fs (_file_path lg conversation_id)); [discriminate|].
    destruct (toml_ok _); [|discriminate].
    intros E. injection E as <- <-. split; [reflexivity|apply read_put_file].
  - intros s t1 t2. reflexivity.
Qed.

(** An instance of claim C7: one system message and two turns written to
    [logs/c1.toml]. *)
Lemma write_document_order_witness :
  let msg (r c : string) := {| msg_role := VStr r; msg_content := VStr c; msg_timestamp := t0;
                               msg_metadata := [] |} in
  let lg := {| directory := path_of_string "logs" |} in
  let system := [msg "system" "Be brief."] in
  let turns := [{| user := msg "user" "hi"; assistant := msg "assistant" "hello" |};
                {| user := msg "user" "bye"; assistant := msg "assistant" "bye" |}] in
  exists fs' p, write lg empty_fs t0 "c1" system turns None = (fs', inr p) /\
    p = path_of_string "logs/c1.toml" /\
    read_file fs' p = Some (Written (build_doc "c1" t0 system turns None)) /\
    length (doc_messages (build_doc "c1" t0 system turns None)) = 5%nat.
Proof.
  intros msg lg system turns.
  destruct (write_document_order lg empty_fs t0 "c1" system turns None) as (_ & H & _).
  do 2 eexists. split; [reflexivity|].
  destruct (H _ _ ltac:(reflexivity)) as [Hp Hr].
  split; [exact Hp|]. split; [exact Hr|]. reflexivity.
Defined.

End PersistenceProofs.

Module TranscriptionExtraProofs.
Import Transcription TranscriptionProofs PCM.

Lemma bytes_eqb_true (x y : bytes) : bytes_eqb x y = true -> x = y.
Proof.
  revert y. induction x as [|a x IH]; intros [|c y]; simpl; try discriminate; auto.
  intros H. apply andb_true_iff in H as [H1 H2].
  apply Byte.byte_dec_bl in H1. subst. f_equal. auto.
Qed.

Lemma startswith_take (d p : bytes) : startswith d p = true -> take (length p) d = p.
Proof.
  revert d. induction p as [|a p IH]; intros [|b d]; simpl; try discriminate; auto.
  intros H. apply andb_true_iff in H as [H1 H2].
  apply Byte.byte_dec_bl in H1. subst. f_equal. auto.
Qed.

Lemma int16_samples_enc (n : Z) (r : bytes) : 0 <= n < 65536 ->
  int16_samples (enc_u16 n ++ r) = (if 32768 <=? n then n - 65536 else n) :: int16_samples r.
Proof. intros H. unfold enc_u16. cbn [app int16_samples]. rewrite le_u16_enc by exact H. reflexivity. Qed.

Lemma int16_samples_pcm16 (ss : list Z) :
  Forall (fun s => -32768 <= s < 32768) ss -> int16_samples (pcm16 ss) = ss.
Proof.
  induction 1 as [|s ss Hs _ IH]; [reflexivity|].
  unfold pcm16 in *. cbn [map concat].
  rewrite int16_samples_enc by (pose proof (Z.mod_pos_bound s 65536); lia).
  rewrite IH. f_equal.
  destruct (Z.leb_spec 32768 (s mod 65536)); Z.div_mod_to_equations; lia.
Qed.

Lemma length_pcm16 (ss : list Z) : length (pcm16 ss) = (2 * length ss)%nat.
Proof. induction ss as [|s ss IH]; [reflexivity|]. unfold pcm16 in *. simpl. lia. Qed.

Lemma normalize_bounds (ss : list Z) :
  Forall (fun s => -32768 <= s < 32768) ss ->
  Forall (fun q => (-1 <= q)%Q /\ (q < 1)%Q) (normalize ss).
Proof.
  induction 1 as [|s ss Hs _ IH]; constructor; [|exact IH].
  unfold Qle, Qlt. simpl. lia.
Qed.

(** Raw 16-bit PCM input (no RIFF header) of non-empty samples reaches
    the model as the samples scaled by [1/32768], each in [[-1, 1)], in one
    engine call; the result carries the model's text, segments and language
    (empty text and no segments when the model omits them). *)
Lemma transcribe_raw_pcm16 cl ss lang
  (Hr : Forall (fun s => -32768 <= s < 32768) ss) (Hne : ss <> [])
  (Hn : startswith (pcm16 ss) (bstr "RIFF") = false) :
  let R := _whisper cl (normalize ss) lang in
  transcribe cl [pcm16 ss] lang =
    ([EngineCall (normalize ss) lang],
     inr {| text := default "" (result_text R);
            segments := map map_segment (default [] (result_segments R));
            language := result_language R |}) /\
  Forall (fun q => (-1 <= q)%Q /\ (q < 1)%Q) (normalize ss).
Proof.
  intros R. split; [|apply normalize_bounds; exact Hr].
  assert (Hc : concat [pcm16 ss] = pcm16 ss) by (simpl; apply app_nil_r).
  rewrite transcribe_nonempty.
  2:{ rewrite Hc. intros E. apply (f_equal length) in E. rewrite length_pcm16 in E.
      destruct ss; [congruence|simpl in E; lia]. }
  rewrite Hc. unfold load_samples. rewrite Hn. unfold frombuffer_int16.
  rewrite length_pcm16, Nat.even_mul. simpl. rewrite int16_samples_pcm16 by exact Hr.
  unfold run_engine. destruct ss as [|s ss']; [congruence|].
  rewrite Z.eqb_refl. reflexivity.
Qed.

(** Raw input (no RIFF header) of an odd number of bytes is rejected
    by [np.frombuffer] with [ValueError] before the model is called. *)
Lemma transcribe_raw_odd cl chunks lang
  (Hs : startswith (concat chunks) (bstr "RIFF") = false)
  (Ho : Nat.odd (length (concat chunks)) = true) :
  transcribe cl chunks lang = ([], inl ValueError).
Proof.
  rewrite transcribe_nonempty by (intros E; rewrite E in Ho; discriminate).
  unfold load_samples. rewrite Hs. unfold frombuffer_int16.
  rewrite <- Nat.negb_odd, Ho. reflexivity.
Qed.

Lemma load_samples_log cl b : fst (load_samples cl b) = [].
Proof.
  unfold load_samples. destruct (startswith b (bstr "RIFF")).
  - destruct (Wave.wave_open b) as [e|w]; [reflexivity|]. simpl.
    destruct (negb (Wave.getsampwidth w =? 2)); [reflexivity|].
    destruct (frombuffer_int16 _); reflexivity.
  - destruct (frombuffer_int16 b); reflexivity.
Qed.

Lemma run_engine_log cl rate a lang : (length (fst (run_engine cl rate a lang)) <= 1)%nat.
Proof.
  unfold run_engine. destruct a; [simpl; lia|].
  destruct (rate =? _sample_rate cl); [simpl; lia|].
  destruct (resample_audio cl); simpl; lia.
Qed.

(** [transcribe] calls the model at most once, and on input that starts
    with ["RIFF"] only when it parses as a WAV file of 16-bit samples. *)
Lemma transcribe_engine_calls cl chunks lang :
  (length (fst (transcribe cl chunks lang)) <= 1)%nat /\
  (startswith (concat chunks) (bstr "RIFF") = true -> fst (transcribe cl chunks lang) <> [] ->
   exists w, Wave.wave_open (concat chunks) = inr w /\ Wave.getsampwidth w = 2).
Proof.
  unfold transcribe.
  destruct (concat chunks) as [|b0 bs] eqn:E; [simpl; split; [lia|congruence]|].
  rewrite <- E.
  pose proof (load_samples_log cl (concat chunks)) as Hl.
  destruct (load_samples cl (concat chunks)) as [w0 [e|r]] eqn:El; simpl in Hl; subst w0.
  - simpl. split; [lia|congruence].
  - simpl. destruct (run_engine cl (fst r) (snd r) lang) as [w1 r1] eqn:Er.
    pose proof (run_engine_log cl (fst r) (snd r) lang) as H1. rewrite Er in H1. simpl in *.
    split; [exact H1|]. intros Hs _.
    unfold load_samples in El. rewrite Hs in El.
    destruct (Wave.wave_open (concat chunks)) as [e|w]; [discriminate|].
    exists w. split; [reflexivity|]. simpl in El.
    destruct (Z.eqb_spec (Wave.getsampwidth w) 2); [assumption|discriminate].
Qed.

(** Input starting with ["RIFF"] whose form type is not ["WAVE"] makes
    [wave.open] raise [wave.Error]; the model is not called. *)
Lemma transcribe_riff_not_wave cl chunks lang
  (Hr : startswith (concat chunks) (bstr "RIFF") = true)
  (H8 : (8 <= length (concat chunks))%nat)
  (Hw : bytes_eqb (take 4 (drop 8 (concat chunks))) (bstr "WAVE") = false) :
  transcribe cl chunks lang = ([], inl WaveError).
Proof.
  rewrite transcribe_nonempty by (intros E; rewrite E in H8; simpl in H8; lia).
  unfold load_samples. rewrite Hr.
  set (buf := concat chunks) in *.
  assert (Ho : Wave.wave_open buf = inl WaveError).
  { unfold Wave.wave_open.
    rewrite !length_take, length_drop.
    replace (Nat.min 4 (length buf) <? 4)%nat with false by (symmetry; apply Nat.ltb_ge; lia).
    replace (Nat.min 4 (length buf - 4) <? 4)%nat with false by (symmetry; apply Nat.ltb_ge; lia).
    simpl orb. cbv zeta.
    replace (take 4 buf) with (bstr "RIFF") by (symmetry; exact (startswith_take _ _ Hr)).
    replace (bytes_eqb (bstr "RIFF") (bstr "RIFF")) with true by reflexivity.
    simpl negb. cbv iota.
    destruct (bytes_eqb (take 4 (take (Z.to_nat (le_u32 (take 4 (drop 4 buf)))) (drop 8 buf)))
                (bstr "WAVE")) eqn:E; [|reflexivity].
    apply bytes_eqb_true in E. exfalso.
    rewrite take_take in E.
    destruct (Nat.lt_ge_cases (Z.to_nat (le_u32 (take 4 (drop 4 buf)))) 4) as [Hle|Hle].
    - apply (f_equal length) in E. rewrite length_take in E. change (length (bstr "WAVE")) with 4%nat in E. lia.
    - rewrite Nat.min_l in E by exact Hle. rewrite E in Hw. discriminate. }
  rewrite Ho. reflexivity.
Qed.


(** A buffer [wave.open] accepts with sample width 2 whose header declares
    less than one whole frame ([getnframes() = 0]) transcribes to the empty
    result without calling the model. *)
Lemma transcribe_wav_no_whole_frame cl chunks lang w
  (Hr : startswith (concat chunks) (bstr "RIFF") = true)
  (Hw : Wave.wave_open (concat chunks) = inr w)
  (H2 : Wave.getsampwidth w = 2) (Hf : Wave.getnframes w = 0) :
  transcribe cl chunks lang = ([], inr empty_result).
Proof.
  rewrite (transcribe_riff cl chunks lang w Hr Hw), H2. cbn [Z.eqb Pos.eqb negb].
  rewrite Hf. reflexivity.
Qed.

Lemma transcribe_raw_pcm16_witness :
  Forall (fun s => -32768 <= s < 32768) [1; -2] /\
  startswith (pcm16 [1; -2]) (bstr "RIFF") = false /\
  transcribe sample_client [pcm16 [1; -2]] None =
    ([EngineCall (normalize [1; -2]) None],
     inr {| text := default "" (result_text (_whisper sample_client (normalize [1; -2]) None));
            segments := map map_segment
                          (default [] (result_segments (_whisper sample_client (normalize [1; -2]) None)));
            language := result_language (_whisper sample_client (normalize [1; -2]) None) |}).
Proof.
  assert (Hr : Forall (fun s => -32768 <= s < 32768) [1; -2]) by (repeat constructor; lia).
  assert (Hn : startswith (pcm16 [1; -2]) (bstr "RIFF") = false) by reflexivity.
  split; [exact Hr|]. split; [exact Hn|].
  exact (proj1 (transcribe_raw_pcm16 sample_client [1; -2] None Hr ltac:(discriminate) Hn)).
Defined.

Lemma transcribe_raw_odd_witness :
  startswith (concat [[x01]; [x02; x03]]) (bstr "RIFF") = false /\
  Nat.odd (length (concat [[x01]; [x02; x03]])) = true /\
  transcribe sample_client [[x01]; [x02; x03]] None = ([], inl ValueError).
Proof.
  assert (Hs : startswith (concat [[x01]; [x02; x03]]) (bstr "RIFF") = false) by reflexivity.
  assert (Ho : Nat.odd (length (concat [[x01]; [x02; x03]])) = true) by reflexivity.
  split; [exact Hs|]. split; [exact Ho|].
  exact (transcribe_raw_odd sample_client _ None Hs Ho).
Defined.

Lemma transcribe_engine_calls_witness :
  startswith (concat [wav_file 1 16000 16 [x01; x00]]) (bstr "RIFF") = true /\
  fst (transcribe sample_client [wav_file 1 16000 16 [x01; x00]] None) <> [] /\
  exists w, Wave.wave_open (concat [wav_file 1 16000 16 [x01; x00]]) = inr w /\
            Wave.getsampwidth w = 2.
Proof.
  assert (Hs : startswith (concat [wav_file 1 16000 16 [x01; x00]]) (bstr "RIFF") = true)
    by reflexivity.
  assert (Hl : fst (transcribe sample_client [wav_file 1 16000 16 [x01; x00]] None) <> [])
    by (vm_compute; discriminate).
  split; [exact Hs|]. split; [exact Hl|].
  exact (proj2 (transcribe_engine_calls sample_client _ None) Hs Hl).
Defined.

Lemma transcribe_riff_not_wave_witness :
  let buf := bstr "RIFF" ++ [x04; x00; x00; x00] ++ bstr "AVI " in
  startswith (concat [buf]) (bstr "RIFF") = true /\
  (8 <= length (concat [buf]))%nat /\
  bytes_eqb (take 4 (drop 8 (concat [buf]))) (bstr "WAVE") = false /\
  transcribe sample_client [buf] None = ([], inl WaveError).
Proof.
  intros buf.
  assert (Hr : startswith (concat [buf]) (bstr "RIFF") = true) by reflexivity.
  assert (H8 : (8 <= length (concat [buf]))%nat) by (vm_compute; lia).
  assert (Hw : bytes_eqb (take 4 (drop 8 (concat [buf]))) (bstr "WAVE") = false) by reflexivity.
  split; [exact Hr|]. split; [exact H8|]. split; [exact Hw|].
  exact (transcribe_riff_not_wave sample_client [buf] None Hr H8 Hw).
Defined.


Lemma transcribe_wav_no_whole_frame_witness :
  let buf := wav_file_list 2 16000 16 [x01; x00] in
  exists w, startswith (concat [buf]) (bstr "RIFF") = true /\
    Wave.wave_open (concat [buf]) = inr w /\
    Wave.getsampwidth w = 2 /\ Wave.getnframes w = 0 /\
    transcribe sample_client [buf] None = ([], inr empty_result).
Proof.
  intros buf.
  destruct (Wave.wave_open (concat [buf])) as [e|w] eqn:Hw; [vm_compute in Hw; discriminate|].
  assert (Hr : startswith (concat [buf]) (bstr "RIFF") = true) by reflexivity.
  pose proof Hw as Ew. vm_compute in Ew. injection Ew as Ew.
  assert (H2 : Wave.getsampwidth w = 2) by (rewrite <- Ew; reflexivity).
  assert (Hf : Wave.getnframes w = 0) by (rewrite <- Ew; reflexivity).
  exists w. split; [exact Hr|]. split; [reflexivity|]. split; [exact H2|]. split; [exact Hf|].
  exact (transcribe_wav_no_whole_frame sample_client [buf] None w Hr Hw H2 Hf).
Defined.

End TranscriptionExtraProofs.

Module MicOpenProofs.
Import Audio MicOpen.
Local Open Scope nat_scope.

Lemma mic_open_ok env w m m1 w1 :
  mic_open env w m = (inr tt, m1, w1) ->
  m1 = {| mic_config := mic_config m; _pyaudio := Some (next_handle w);
          _stream := Some (S (next_handle w)) |} /\
  w1 = {| next_handle := S (S (next_handle w));
          live := live w ++ [next_handle w; S (next_handle w)] |}.
Proof.
  unfold mic_open. destruct (pyaudio_installed env); [|discriminate].
  destruct (pyaudio_new_error env); [discriminate|].
  simpl. destruct (format_map (format (mic_config m))); [|discriminate].
  destruct (stream_open_error env _ _ _ _ _ _); [discriminate|].
  intros H. injection H as <- <-. rewrite <- app_assoc. auto.
Qed.

(** [close()] on a microphone holding both handles, with a working library. *)
Lemma close_both_handles c p s w :
  mic_close_world working_library {| mic_config := c; _pyaudio := Some p; _stream := Some s |} w =
  (inr tt, {| mic_config := c; _pyaudio := None; _stream := None |},
   release working_library [StopStream s; CloseStream s; Terminate p] w).
Proof. reflexivity. Qed.

Lemma filter_fresh (l : list handle) (n : nat) (P : handle -> Prop) `{!forall h, Decision (P h)} :
  Forall (fun h => h < n)%nat l -> (forall h, (h < n)%nat -> P h) -> filter P l = l.
Proof.
  induction 1 as [|h l Hh _ IH]; intros HP; [reflexivity|].
  rewrite filter_cons_True by auto. f_equal. auto.
Qed.

Lemma release_fresh (l : list handle) (n k : nat) :
  Forall (fun h => h < n)%nat l ->
  live (release working_library [StopStream (S n); CloseStream (S n); Terminate n]
          {| next_handle := k; live := l ++ [n; S n] |}) = l.
Proof.
  intros Hl. unfold release. cbn [live]. rewrite filter_app.
  rewrite (filter_fresh l n).
  - rewrite filter_cons_False.
    + rewrite filter_cons_False; [apply app_nil_r|].
      simpl. rewrite Nat.eqb_refl. simpl. auto.
    + simpl. rewrite Nat.eqb_refl. destruct (Nat.eqb_spec n (S n)); [lia|]. simpl. auto.
  - exact Hl.
  - intros h Hh. simpl.
    destruct (Nat.eqb_spec h (S n)); [lia|]. destruct (Nat.eqb_spec h n); [lia|]. exact I.
Qed.

(** A successful [open] acquires a [PyAudio] instance and a stream, two
    fresh handles; [close] with a working library then returns, leaves the
    microphone closed, and releases exactly those two handles. *)
Lemma open_then_close_releases env w m m1 w1
  (Hwf : Forall (fun h => h < next_handle w)%nat (live w))
  (Ho : mic_open env w m = (inr tt, m1, w1)) :
  live w1 = live w ++ [next_handle w; S (next_handle w)] /\
  exists m2 w2, mic_close_world working_library m1 w1 = (inr tt, m2, w2) /\
    is_closed (Mic m2) /\ live w2 = live w.
Proof.
  apply mic_open_ok in Ho as [-> ->]. split; [reflexivity|].
  rewrite close_both_handles. do 2 eexists. split; [reflexivity|].
  split; [split; reflexivity|]. apply release_fresh. exact Hwf.
Qed.

(** [open] with a format other than ["int16"] and ["float32"] raises
    [RuntimeError("Unsupported audio format: ...")] after creating the
    [PyAudio] instance, which stays in [_pyaudio] and alive until [close]
    terminates it. *)
Lemma open_bad_format_keeps_pyaudio env w m
  (Hi : pyaudio_installed env = true) (Hn : pyaudio_new_error env = None)
  (Hf : format_map (format (mic_config m)) = None)
  (Hwf : Forall (fun h => h < next_handle w)%nat (live w))
  (Hs : _stream m = None) :
  exists m1 w1,
    mic_open env w m = (inl (RuntimeError ("Unsupported audio format: " +:+ format (mic_config m))), m1, w1) /\
    _pyaudio m1 = Some (next_handle w) /\ live w1 = live w ++ [next_handle w] /\
    exists m2 w2, mic_close_world working_library m1 w1 = (inr tt, m2, w2) /\
      is_closed (Mic m2) /\ live w2 = live w.
Proof.
  unfold mic_open. rewrite Hi, Hn. simpl. rewrite Hf.
  do 2 eexists. split; [reflexivity|]. simpl. split; [reflexivity|]. split; [reflexivity|].
  unfold mic_close_world, mic_close. simpl. rewrite Hs. simpl.
  do 2 eexists. split; [reflexivity|]. split; [split; reflexivity|]. simpl.
  rewrite filter_app, (filter_fresh (live w) (next_handle w)).
  - rewrite filter_cons_False by (rewrite Nat.eqb_refl; simpl; auto). apply app_nil_r.
  - exact Hwf.
  - intros h Hh. destruct (Nat.eqb_spec h (next_handle w)); [lia|exact I].
Qed.

(** Calling [open] twice on the same microphone overwrites the first
    [PyAudio] instance and stream: [close] then releases only the second
    pair, and the first two handles stay alive. *)
Lemma open_twice_leaks env w m m1 w1 m2 w2
  (Hwf : Forall (fun h => h < next_handle w)%nat (live w))
  (Ho1 : mic_open env w m = (inr tt, m1, w1))
  (Ho2 : mic_open env w1 m1 = (inr tt, m2, w2)) :
  exists m3 w3, mic_close_world working_library m2 w2 = (inr tt, m3, w3) /\
    is_closed (Mic m3) /\ live w3 = live w ++ [next_handle w; S (next_handle w)].
Proof.
  apply mic_open_ok in Ho1 as [-> ->]. apply mic_open_ok in Ho2 as [-> ->].
  rewrite close_both_handles. do 2 eexists. split; [reflexivity|].
  split; [split; reflexivity|]. cbn [next_handle live].
  apply release_fresh.
  apply Forall_app. split.
  - eapply Forall_impl; [exact Hwf|]. simpl. lia.
  - repeat constructor; simpl; lia.
Qed.

Lemma mic_close_ok_stream lib m r m2 w w2 :
  mic_close_world lib m w = (inr r, m2, w2) -> _stream m2 = None.
Proof.
  unfold mic_close_world, mic_close.
  destruct (_stream m) as [h|] eqn:Hs.
  - destruct (lib (StopStream h)); [discriminate|].
    destruct (lib (CloseStream h)); [discriminate|]. simpl.
    destruct (_pyaudio m) as [p|]; simpl; [destruct (lib (Terminate p))|];
      intros E; inversion E; reflexivity.
  - destruct (_pyaudio m) as [p|]; simpl; [destruct (lib (Terminate p))|];
      intros E; inversion E; subst; simpl; exact Hs.
Qed.

(** [chunks()] reads [chunk_size] frames per item from the stream [open]
    created; before [open], and after a [close()] that returned, drawing an
    item raises [RuntimeError("Microphone stream is not opened")]. *)
Theorem chunks_follow_open_close env lib read w m m1 w1 n :
  mic_open env w m = (inr tt, m1, w1) ->
  mic_chunks read (S n) (mic_init (mic_config m)) =
    inl (RuntimeError "Microphone stream is not opened") /\
  mic_chunks read n m1 =
    inr (map (fun i => read (S (next_handle w)) i (chunk_size (mic_config m))) (seq 0 n)) /\
  (forall r m2 w2, mic_close_world lib m1 w1 = (inr r, m2, w2) ->
     mic_chunks read (S n) m2 = inl (RuntimeError "Microphone stream is not opened")).
Proof.
  intros Ho. pose proof (mic_open_ok _ _ _ _ _ Ho) as [-> ->].
  split; [reflexivity|]. split; [destruct n; reflexivity|].
  intros r m2 w2 Hc. apply mic_close_ok_stream in Hc. simpl. rewrite Hc. reflexivity.
Qed.



Lemma open_then_close_releases_witness :
  Forall (fun h => h < next_handle sample_world)%nat (live sample_world) /\
  mic_open working_env sample_world (mic_init default_config) =
    (inr tt, {| mic_config := default_config; _pyaudio := Some 5; _stream := Some 6 |},
     {| next_handle := 7; live := [1; 3; 5; 6] |}) /\
  exists m2 w2,
    mic_close_world working_library
      {| mic_config := default_config; _pyaudio := Some 5; _stream := Some 6 |}
      {| next_handle := 7; live := [1; 3; 5; 6] |} = (inr tt, m2, w2) /\
    is_closed (Mic m2) /\ live w2 = [1; 3].
Proof.
  assert (Hwf : Forall (fun h => h < next_handle sample_world)%nat (live sample_world)) by (repeat constructor; simpl; lia).
  assert (Ho : mic_open working_env sample_world (mic_init default_config) =
    (inr tt, {| mic_config := default_config; _pyaudio := Some 5; _stream := Some 6 |},
     {| next_handle := 7; live := [1; 3; 5; 6] |})) by reflexivity.
  split; [exact Hwf|]. split; [exact Ho|].
  exact (proj2 (open_then_close_releases working_env sample_world _ _ _ Hwf Ho)).
Defined.

Lemma open_bad_format_keeps_pyaudio_witness :
  format_map (format int8_config) = None /\
  exists m1 w1,
    mic_open working_env sample_world (mic_init int8_config) =
      (inl (RuntimeError ("Unsupported audio format: " +:+ "int8")), m1, w1) /\
    _pyaudio m1 = Some 5%nat /\ live w1 = [1; 3; 5] /\
    exists m2 w2, mic_close_world working_library m1 w1 = (inr tt, m2, w2) /\
      is_closed (Mic m2) /\ live w2 = [1; 3].
Proof.
  assert (Hf : format_map (format (mic_config (mic_init int8_config))) = None) by reflexivity.
  split; [exact Hf|].
  exact (open_bad_format_keeps_pyaudio working_env sample_world (mic_init int8_config)
           ltac:(reflexivity) ltac:(reflexivity) Hf ltac:(repeat constructor; simpl; lia)
           ltac:(reflexivity)).
Defined.

Lemma open_twice_leaks_witness :
  exists m3 w3,
    mic_close_world working_library
      {| mic_config := default_config; _pyaudio := Some 7; _stream := Some 8 |}
      {| next_handle := 9; live := [1; 3; 5; 6; 7; 8] |} = (inr tt, m3, w3) /\
    is_closed (Mic m3) /\ live w3 = [1; 3; 5; 6].
Proof.
  exact (open_twice_leaks working_env sample_world (mic_init default_config)
           {| mic_config := default_config; _pyaudio := Some 5; _stream := Some 6 |}
           {| next_handle := 7; live := [1; 3; 5; 6] |}
           {| mic_config := default_config; _pyaudio := Some 7; _stream := Some 8 |}
           {| next_handle := 9; live := [1; 3; 5; 6; 7; 8] |}
           ltac:(repeat constructor; simpl; lia) ltac:(reflexivity) ltac:(reflexivity)).
Defined.

Lemma chunks_follow_open_close_witness :
  let read := fun (s i : nat) (_ : Z) => repeat Byte.x00 (s + i) in
  mic_chunks read 3 (mic_init default_config) =
    inl (RuntimeError "Microphone stream is not opened") /\
  mic_chunks read 2 {| mic_config := default_config; _pyaudio := Some 5; _stream := Some 6 |} =
    inr [repeat Byte.x00 6; repeat Byte.x00 7] /\
  exists m2 w2,
    mic_close_world working_library
      {| mic_config := default_config; _pyaudio := Some 5; _stream := Some 6 |}
      {| next_handle := 7; live := [1; 3; 5; 6] |} = (inr tt, m2, w2) /\
    mic_chunks read 3 m2 = inl (RuntimeError "Microphone stream is not opened").
Proof.
  intros read.
  destruct (chunks_follow_open_close working_env working_library read sample_world (mic_init default_config)
              {| mic_config := default_config; _pyaudio := Some 5; _stream := Some 6 |}
              {| next_handle := 7; live := [1; 3; 5; 6] |} 2 ltac:(reflexivity)) as [H1 [H2 H3]].
  split; [exact H1|]. split; [exact H2|].
  exists {| mic_config := default_config; _pyaudio := None; _stream := None |},
         (release working_library [StopStream 6; CloseStream 6; Terminate 5]
            {| next_handle := 7; live := [1; 3; 5; 6] |}).
  split; [reflexivity|]. exact (H3 tt _ _ ltac:(reflexivity)).
Defined.

End MicOpenProofs.

Module ConversationExtraProofs.
Import Conversation ManagerRun ConversationProofs.
Local Open Scope nat_scope.

Lemma filter_seq_ext (f g : nat -> bool) (n : nat) :
  (forall l, l < n -> f l = g l) -> List.filter f (seq 0 n) = List.filter g (seq 0 n).
Proof.
  intros H. apply List.filter_ext_in. intros a Ha. apply in_seq in Ha. apply H. lia.
Qed.

Lemma is_message_app h o l : l < length h -> is_message (h ++ [o]) l = is_message h l.
Proof. intros Hl. unfold is_message, msg_at, loc. rewrite lookup_app_l by exact Hl. reflexivity. Qed.

Lemma push_obj_refs h msgs o :
  msgs = List.filter (is_message h) (seq 0 (length h)) ->
  msgs ++ (if is_message_obj o then [length h] else []) =
    List.filter (is_message (h ++ [o])) (seq 0 (length (h ++ [o]))).
Proof.
  intros ->. rewrite length_app, Nat.add_1_r, seq_S, List.filter_app.
  f_equal.
  - apply filter_seq_ext. intros l Hl. symmetry. apply is_message_app. exact Hl.
  - simpl. unfold is_message, msg_at, loc. rewrite lookup_app_last. destruct o; reflexivity.
Qed.

Lemma new_message_refs st v :
  refs_ok st ->
  refs_ok (append_message st (fst (new_message (heap st) v)) (snd (new_message (heap st) v))).
Proof.
  unfold refs_ok, append_message. rewrite new_message_spec. cbn [fst snd heap messages]. intros H.
  pose proof (push_obj_refs _ _ (ODict (msg_metadata v)) H) as H1. simpl in H1.
  rewrite app_nil_r in H1.
  pose proof (push_obj_refs _ _ (OMessage {| role := msg_role v; content := msg_content v;
                                              timestamp := msg_timestamp v;
                                              metadata := length (heap st) |}) H1) as H2.
  simpl in H2. rewrite <- app_assoc in H2. simpl in H2. rewrite length_app in H2. simpl in H2.
  rewrite Nat.add_1_r in H2. exact H2.
Qed.

Lemma metadata_or_empty_refs h md msgs :
  msgs = List.filter (is_message h) (seq 0 (length h)) ->
  msgs = List.filter (is_message (fst (metadata_or_empty h md)))
                     (seq 0 (length (fst (metadata_or_empty h md)))).
Proof.
  intros H.
  assert (Hd : msgs = List.filter (is_message (h ++ [ODict []])) (seq 0 (length (h ++ [ODict []])))).
  { pose proof (push_obj_refs h msgs (ODict []) H) as H1. simpl in H1.
    rewrite app_nil_r in H1. exact H1. }
  destruct md as [r|]; simpl; [|exact Hd].
  destruct (dict_at h r) as [d|]; [|exact H].
  destruct (dict_truthy d); [exact H|exact Hd].
Qed.

Lemma add_user_message_refs st text md now :
  refs_ok st -> refs_ok (fst (add_user_message st text md now)).
Proof.
  unfold refs_ok, add_user_message. intros H.
  pose proof (metadata_or_empty_refs (heap st) md (messages st) H) as H1.
  destruct (metadata_or_empty (heap st) md) as [h1 d]. simpl in *.
  exact (push_obj_refs h1 _ (OMessage {| role := VStr "user"; content := VStr text;
                                        timestamp := now; metadata := d |}) H1).
Qed.

Lemma dict_at_lt h l d : dict_at h l = Some d -> l < length h.
Proof.
  unfold dict_at. destruct (h !! l) as [o|] eqn:E; [|discriminate].
  intros _. eapply lookup_lt_Some. exact E.
Qed.

Lemma dict_at_not_message h l d : dict_at h l = Some d -> msg_at h l = None.
Proof. unfold dict_at, msg_at. destruct (h !! l) as [[]|]; congruence. Qed.

Lemma apply_snapshot_op_kinds snap h op h' :
  apply_snapshot_op snap h op = inr h' ->
  length h' = length h /\ forall l, is_message h' l = is_message h l.
Proof.
  unfold apply_snapshot_op. destruct op; [discriminate| | | |];
  (destruct (snap !! _) as [l0|]; [|discriminate]);
  (destruct (msg_at h l0) as [m|] eqn:Em; [|intros E; injection E as <-; auto]).
  1-3: intros E; injection E as <-; split; [apply length_insert|];
       intros l; unfold is_message, msg_at, loc in *;
       (destruct (decide (l = l0)) as [->|Hne];
        [rewrite list_lookup_insert_eq by (eapply msg_at_lt; unfold msg_at; exact Em);
         destruct (h !! l0) as [[]|]; congruence
        |rewrite list_lookup_insert_ne by congruence; reflexivity]).
  destruct (dict_at h (metadata m)) as [d|] eqn:Ed; [|discriminate].
  intros E; injection E as <-. split; [apply length_insert|].
  assert (Hlt : metadata m < length h) by (eapply dict_at_lt; exact Ed).
  assert (Hnm : msg_at h (metadata m) = None) by (eapply dict_at_not_message; exact Ed).
  intros l. unfold is_message.
  destruct (decide (l = metadata m)) as [->|Hne].
  - rewrite Hnm. unfold msg_at, loc. rewrite list_lookup_insert_eq by exact Hlt. reflexivity.
  - unfold msg_at, loc. rewrite list_lookup_insert_ne by congruence. reflexivity.
Qed.

Lemma mutate_snapshot_refs_ok snap st ops : refs_ok st -> refs_ok (mutate_snapshot snap st ops).
Proof.
  revert st. induction ops as [|op ops IH]; intros st H; simpl; [exact H|].
  destruct (apply_snapshot_op snap (heap st) op) as [e|h'] eqn:E; [exact H|].
  apply IH. unfold refs_ok in *. simpl.
  destruct (apply_snapshot_op_kinds _ _ _ _ E) as [Hlen Hk].
  rewrite H, Hlen. apply List.filter_ext. intros l. symmetry. apply Hk.
Qed.

Lemma step_refs_ok st op : refs_ok st -> refs_ok (step st op).
Proof.
  intros H. destruct op; unfold step.
  - unfold refs_ok in *. simpl.
    pose proof (push_obj_refs _ _ (ODict d) H) as H1. simpl in H1. rewrite app_nil_r in H1.
    exact H1.
  - apply add_user_message_refs, H.
  - unfold add_system_message.
    pose proof (new_message_refs st {| msg_role := VStr "system"; msg_content := VStr text;
                                       msg_timestamp := now; msg_metadata := [] |} H) as H1.
    destruct (new_message _ _). exact H1.
  - unfold generate_reply. fold (history st). destruct (generate _ _ _ _ _) as [e|v]; [exact H|].
    pose proof (new_message_refs st v H) as H1. destruct (new_message _ _). exact H1.
  - apply mutate_snapshot_refs_ok, H.
Qed.

Lemma run_manager_refs_ok st ops : refs_ok st -> refs_ok (run_manager st ops).
Proof.
  revert st. induction ops; intros st H; simpl; [exact H|]. apply IHops, step_refs_ok, H.
Qed.

(** Every manager a caller can reach from [ConversationManager()] holds
    each of its message objects exactly once: [history()] has no repeated
    reference, refers to exactly the message objects ever created, and
    lists them in creation order. *)
Theorem manager_history_distinct c cfg ops :
  let st := run_manager (new_manager c cfg) ops in
  NoDup (history st) /\
  (forall l, l ∈ history st <-> exists m, msg_at (heap st) l = Some m) /\
  history st = List.filter (is_message (heap st)) (seq 0 (length (heap st))).
Proof.
  simpl. pose proof (run_manager_refs_ok (new_manager c cfg) ops eq_refl) as H.
  unfold refs_ok in H. unfold history. rewrite H.
  split; [|split; [|reflexivity]].
  - apply NoDup_ListNoDup, List.NoDup_filter, List.seq_NoDup.
  - intros l. rewrite list_elem_of_In, List.filter_In, in_seq. unfold is_message.
    split.
    + intros [_ Hm]. destruct (msg_at _ l) as [m|]; [exists m; reflexivity|discriminate].
    + intros [m Hm]. rewrite Hm. split; [|reflexivity].
      apply msg_at_lt in Hm. lia.
Qed.

Lemma generate_reply_ok st server now v :
  generate (llm st) server (deref (heap st) (messages st)) (Some (config st)) now = inr v ->
  generate_reply st server now =
    (append_message st (fst (new_message (heap st) v)) (snd (new_message (heap st) v)),
     inr (snd (new_message (heap st) v))).
Proof. unfold generate_reply. intros ->. destruct (new_message _ _). reflexivity. Qed.

(** A 2xx answer whose first choice has a ["message"] object becomes the
    reply: role and content from that object (["assistant"] and [""] when
    absent), the clock reading as timestamp, and a new metadata dict holding
    [{"usage": u}] exactly when the answer's ["usage"] is an object [u]; it
    is appended to the history. *)
Theorem reply_from_choice st server now status dd first rest cm :
  server (build_payload (llm st) (deref (heap st) (messages st)) (config st))
    = HttpResponse status (Some (VDict dd)) ->
  (200 <= status < 300)%Z ->
  dict_get "choices" dd = Some (VList (first :: rest)) ->
  getitem_key first "message" = inr (VDict cm) ->
  exists st' l,
    generate_reply st server now = (st', inr l) /\
    history st' = history st ++ [l] /\
    read_message (heap st') l =
      Some {| msg_role := default (VStr "assistant") (dict_get "role" cm);
              msg_content := default (VStr "") (dict_get "content" cm);
              msg_timestamp := now;
              msg_metadata := match dict_get "usage" dd with
                              | Some (VDict u) => [("usage", VDict u)]
                              | _ => [] end |} /\
    exists m, msg_at (heap st') l = Some m /\ heap st !! metadata m = None.
Proof.
  intros Hs H2 Hc Hm.
  erewrite generate_reply_ok.
  2:{ unfold generate. simpl. rewrite Hs.
      replace (negb ((200 <=? status)%Z && (status <? 300)%Z)) with false
        by (symmetry; apply negb_false_iff, andb_true_iff; lia).
      simpl. rewrite Hc. simpl. rewrite Hm. simpl. reflexivity. }
  do 2 eexists. split; [reflexivity|]. split; [reflexivity|]. split.
  - unfold append_message. cbn [heap]. rewrite read_new_message.
    destruct (dict_get "usage" dd) as [[]|]; reflexivity.
  - rewrite new_message_spec. simpl. eexists. split.
    + unfold msg_at, loc. rewrite (proj2 (lookup_app_two _ _ _)). reflexivity.
    + simpl. apply lookup_ge_None_2. lia.
Qed.


(** The request body carries the keys [model], [messages], [temperature]
    in that order, then [max_tokens] exactly when the configuration sets
    it (also to [0]); [model] is the client's and [temperature] and
    [max_tokens] are the configuration's. *)
Theorem payload_fields c msgs cfg :
  let p := build_payload c msgs cfg in
  map fst p = ["model"; "messages"; "temperature"] ++
              match max_tokens cfg with Some _ => ["max_tokens"] | None => [] end /\
  dict_get "model" p = Some (VStr (_model c)) /\
  dict_get "temperature" p = Some (VFloat (temperature cfg)) /\
  dict_get "max_tokens" p = option_map VInt (max_tokens cfg).
Proof.
  unfold build_payload.
  destruct (max_tokens cfg), (prompt_truthy (system_prompt cfg)); simpl; repeat split.
Qed.

Lemma reply_from_choice_witness :
  let st := fst (add_user_message (new_manager {| _model := "m" |} default_generation_config)
                   "hello" None t0) in
  exists st' l,
    generate_reply st usage_server t0 = (st', inr l) /\
    history st' = history st ++ [l] /\
    read_message (heap st') l =
      Some {| msg_role := VStr "assistant"; msg_content := VStr "hi"; msg_timestamp := t0;
              msg_metadata := [("usage", VDict [("total_tokens", VInt 7)])] |} /\
    exists m, msg_at (heap st') l = Some m /\ heap st !! metadata m = None.
Proof.
  intros st.
  exact (reply_from_choice st usage_server t0 200
           [("choices", VList [VDict [("message", VDict [("content", VStr "hi")])]]);
            ("usage", VDict [("total_tokens", VInt 7)])]
           (VDict [("message", VDict [("content", VStr "hi")])]) []
           [("content", VStr "hi")]
           ltac:(reflexivity) ltac:(lia) ltac:(reflexivity) ltac:(reflexivity)).
Defined.


End ConversationExtraProofs.

Module PersistenceExtraProofs.
Import Conversation Persistence PersistenceProofs.
Local Open Scope nat_scope.





Lemma string_app_cons c (a b : string) : String c a +:+ b = String c (a +:+ b).
Proof. reflexivity. Qed.

Lemma string_app_assoc (a b c : string) : (a +:+ b) +:+ c = a +:+ (b +:+ c).
Proof.
  induction a as [|x a IH]; [reflexivity|]. rewrite !string_app_cons, IH. reflexivity.
Qed.

Lemma lstrip_slash_length s : String.length (lstrip_slash s) <= String.length s.
Proof.
  induction s as [|c s IH]; simpl; [lia|].
  destruct (Ascii.eqb c "/"%char); simpl; lia.
Qed.

Lemma lstrip_slash_id s : (forall t, s <> String "/"%char t) -> lstrip_slash s = s.
Proof.
  destruct s as [|c s]; intros H; [reflexivity|]. simpl.
  destruct (Ascii.eqb c "/"%char) eqn:E; [|reflexivity].
  apply Ascii.eqb_eq in E. subst c. exfalso. exact (H s eq_refl).
Qed.

Lemma splitroot_relative s : (forall t, s <> String "/"%char t) -> splitroot s = ("", s).
Proof.
  intros H. unfold splitroot. rewrite (lstrip_slash_id s H).
  rewrite Nat.sub_diag. reflexivity.
Qed.

Lemma splitroot_absolute t : fst (splitroot (String "/"%char t)) <> "".
Proof.
  unfold splitroot. simpl lstrip_slash.
  pose proof (lstrip_slash_length t) as Hl.
  destruct (String.length (String "/"%char t) - String.length (lstrip_slash t)) as [|[|[|k]]] eqn:E;
    simpl in E |- *; [lia|discriminate..].
Qed.

Lemma split_slash_dot_slash t : split_slash (String "."%char (String "/"%char t)) = "." :: split_slash t.
Proof. reflexivity. Qed.

Lemma split_slash_no_slash s :
  forallb (fun c => negb (Ascii.eqb c "/"%char)) (Stdlib.Strings.String.list_ascii_of_string s) = true ->
  split_slash s = [s].
Proof.
  induction s as [|c s IH]; [reflexivity|]. simpl. intros H.
  apply andb_true_iff in H as [Hc H].
  destruct (Ascii.eqb c "/"%char); [discriminate|]. rewrite IH by exact H. reflexivity.
Qed.


(** [TomlLogger._file_path] is [pathlib]'s [/]: an identifier starting
    with ["/"] names an absolute path and discards the directory; an
    identifier without ["/"] names [<identifier>.toml] in the directory;
    a leading ["./"] on an identifier not starting with ["/"] changes
    nothing. *)
Theorem file_path_resolution lg conversation_id :
  ((exists s, conversation_id = String "/"%char s) ->
     _file_path lg conversation_id = path_of_string (conversation_id +:+ ".toml")) /\
  (forallb (fun c => negb (Ascii.eqb c "/"%char)) (Stdlib.Strings.String.list_ascii_of_string conversation_id) = true ->
     _file_path lg conversation_id =
       {| root := root (directory lg);
          parts := parts (directory lg) ++ [conversation_id +:+ ".toml"] |}) /\
  ((forall s, conversation_id <> String "/"%char s) ->
     _file_path lg ("./" +:+ conversation_id) = _file_path lg conversation_id).
Proof.
  assert (Hrel : forall t, (forall s, conversation_id <> String "/"%char s) ->
            t = conversation_id +:+ ".toml" -> forall s, t <> String "/"%char s).
  { intros t H -> s E. destruct conversation_id as [|c i]; [discriminate E|].
    rewrite string_app_cons in E. injection E as -> _. exact (H i eq_refl). }
  split; [|split].
  - intros [s ->]. unfold _file_path, path_div.
    destruct (String.eqb (root (path_of_string (String "/"%char s +:+ ".toml"))) "") eqn:E;
      [|reflexivity].
    apply String.eqb_eq in E. exfalso.
    unfold path_of_string in E. rewrite string_app_cons in E.
    pose proof (splitroot_absolute (s +:+ ".toml")) as Ha.
    destruct (splitroot (String "/"%char (s +:+ ".toml"))) as [r rel]. simpl in E, Ha.
    exact (Ha E).
  - intros H. unfold _file_path, path_div, path_of_string.
    assert (Hs : forall s, conversation_id +:+ ".toml" <> String "/"%char s).
    { apply (Hrel _); [|reflexivity]. intros s E. subst conversation_id.
      simpl in H. discriminate H. }
    rewrite (splitroot_relative _ Hs). simpl root.
    rewrite (split_slash_no_slash (conversation_id +:+ ".toml")).
    + simpl. destruct (String.eqb (conversation_id +:+ ".toml") "") eqn:E1.
      { apply String.eqb_eq in E1. destruct conversation_id; discriminate E1. }
      destruct (String.eqb (conversation_id +:+ ".toml") ".") eqn:E2.
      { apply String.eqb_eq in E2. destruct conversation_id as [|c [|c' i]]; discriminate E2. }
      reflexivity.
    + clear -H. induction conversation_id as [|c i IH]; [reflexivity|].
      rewrite string_app_cons. simpl in H |- *.
      apply andb_true_iff in H as [Hc H]. rewrite Hc. exact (IH H).
  - intros H. unfold _file_path, path_div.
    assert (Hs : forall s, conversation_id +:+ ".toml" <> String "/"%char s)
      by (apply (Hrel _ H); reflexivity).
    assert (Hp : path_of_string (("./" +:+ conversation_id) +:+ ".toml") =
                 path_of_string (conversation_id +:+ ".toml")).
    { rewrite string_app_assoc. unfold path_of_string.
      rewrite (splitroot_relative _ Hs).
      rewrite (splitroot_relative ("./" +:+ (conversation_id +:+ ".toml")))
        by (intros s E; discriminate E).
      rewrite !string_app_cons. rewrite split_slash_dot_slash. reflexivity. }
    rewrite Hp. reflexivity.
Qed.


Lemma file_path_resolution_witness :
  let lg := {| directory := path_of_string "logs" |} in
  _file_path lg "/tmp/x" = path_of_string "/tmp/x.toml" /\
  _file_path lg "c1" = path_of_string "logs/c1.toml" /\
  _file_path lg "./c1" = _file_path lg "c1".
Proof.
  intros lg.
  destruct (file_path_resolution lg "/tmp/x") as [H1 _].
  destruct (file_path_resolution lg "c1") as [_ [H2 H3]].
  split; [exact (H1 (ex_intro _ "tmp/x" eq_refl))|].
  split; [rewrite (H2 eq_refl); reflexivity|].
  exact (H3 (fun s E => ltac:(discriminate E))).
Defined.

End PersistenceExtraProofs.

Module SettingsProofs.
Import Settings.
Local Open Scope nat_scope.

Lemma dict_get_set_eq k v d : dict_get k (dict_set k v d) = Some v.
Proof.
  induction d as [|[k' v'] d IH]; simpl; [rewrite String.eqb_refl; reflexivity|].
  destruct (String.eqb k k') eqn:E; simpl; rewrite ?E; [reflexivity|exact IH].
Qed.

Lemma dict_get_set_ne k k' v d : k' <> k -> dict_get k' (dict_set k v d) = dict_get k' d.
Proof.
  intros Hne. induction d as [|[k0 v0] d IH]; simpl.
  - destruct (String.eqb k' k) eqn:E; [apply String.eqb_eq in E; congruence|reflexivity].
  - destruct (String.eqb k k0) eqn:E; simpl.
    + apply String.eqb_eq in E; subst k0.
      destruct (String.eqb k' k) eqn:E'; [apply String.eqb_eq in E'; congruence|reflexivity].
    + destruct (String.eqb k' k0); [reflexivity|exact IH].
Qed.

Lemma from_mapping_sections fos d1 d2 :
  section d1 "whisper" = section d2 "whisper" ->
  section d1 "lmstudio" = section d2 "lmstudio" ->
  section d1 "logging" = section d2 "logging" ->
  from_mapping fos d1 = from_mapping fos d2.
Proof. intros H1 H2 H3. unfold from_mapping. rewrite H1, H2, H3. reflexivity. Qed.

Lemma section_set_falsy k k' v data :
  truthy v = false -> section (dict_set k v data) k' = section (dict_set k (VDict []) data) k'.
Proof.
  intros Hv. unfold section. destruct (decide (k' = k)) as [->|Hne].
  - rewrite !dict_get_set_eq, Hv. reflexivity.
  - rewrite !dict_get_set_ne by exact Hne. reflexivity.
Qed.

(** A key whose value is falsy ([false], [0], [0.0], [""], an empty
    array or table) is read exactly as if it held an empty table: for the
    three sections that means every setting takes its default. *)
Theorem falsy_section_as_empty fos data k v :
  truthy v = false ->
  from_mapping fos (dict_set k v data) = from_mapping fos (dict_set k (VDict []) data).
Proof. intros Hv. apply from_mapping_sections; apply section_set_falsy, Hv. Qed.

Lemma set_contains_allowed wm :
  set_contains ALLOWED_WHISPER_MODELS wm = inr true ->
  exists m, wm = VStr m /\ In m ALLOWED_WHISPER_MODELS.
Proof.
  destruct wm as [| | | |s| |]; unfold set_contains; try discriminate. intros E. injection E as E.
  change (existsb (String.eqb s) ALLOWED_WHISPER_MODELS = true) in E.
  apply existsb_exists in E as [x [Hx Ex]]. apply String.eqb_eq in Ex. subst x. eauto.
Qed.

(** [from_mapping] only ever yields a Whisper model named in
    [ALLOWED_WHISPER_MODELS], and rejects any other model name with
    [ValueError]. *)
Theorem from_mapping_model_allowed fos data :
  (forall s, from_mapping fos data = inr s ->
     exists m, whisper_model (whisper s) = VStr m /\ In m ALLOWED_WHISPER_MODELS) /\
  (forall m, py_get (section data "whisper") "model" (VStr "small") = inr (VStr m) ->
     ~ In m ALLOWED_WHISPER_MODELS -> from_mapping fos data = inl ValueError).
Proof.
  split.
  - intros s. unfold from_mapping.
    destruct (py_get _ "model" _) as [e|wm]; simpl; [discriminate|].
    destruct (set_contains _ wm) as [e|[]] eqn:Ec; simpl; try discriminate.
    apply set_contains_allowed in Ec.
    destruct (py_get (section data "lmstudio") "base_url" _); simpl; [discriminate|].
    destruct (py_get (section data "lmstudio") "model" _); simpl; [discriminate|].
    destruct (py_get (section data "lmstudio") "temperature" _); simpl; [discriminate|].
    destruct (py_float _ _); simpl; [discriminate|].
    destruct (py_get (section data "lmstudio") "max_tokens" _); simpl; [discriminate|].
    destruct (py_get (section data "logging") "output_dir" _); simpl; [discriminate|].
    destruct (py_path _); simpl; [discriminate|].
    intros E. injection E as <-. exact Ec.
  - intros m Hg Hn. unfold from_mapping. rewrite Hg. cbn [sum_bind set_contains].
    destruct (existsb (String.eqb m) ALLOWED_WHISPER_MODELS) eqn:E; [|reflexivity].
    exfalso. apply Hn. apply existsb_exists in E as [x [Hx Ex]].
    apply String.eqb_eq in Ex. subst x. exact Hx.
Qed.

Lemma section_set_truthy k v data : truthy v = true -> section (dict_set k v data) k = v.
Proof. intros Hv. unfold section. rewrite dict_get_set_eq, Hv. reflexivity. Qed.

Lemma py_get_non_dict v k dflt : (forall d, v <> VDict d) -> py_get v k dflt = inl AttributeError.
Proof. intros H. destruct v; try reflexivity. exfalso. eapply H. reflexivity. Qed.

(** [from_mapping] succeeds exactly when every section is a table, the
    model is an allowed name, the temperature converts with [float()] and
    the output directory is a string; the settings are then the section
    values with their defaults, with [base_url], [model] and [max_tokens]
    taken over unchecked. *)
Theorem from_mapping_success fos data s :
  from_mapping fos data = inr s <->
  exists wd ld gd m t dir,
    section data "whisper" = VDict wd /\
    section data "lmstudio" = VDict ld /\
    section data "logging" = VDict gd /\
    default (VStr "small") (dict_get "model" wd) = VStr m /\ In m ALLOWED_WHISPER_MODELS /\
    py_float fos (default (VFloat float_0_7) (dict_get "temperature" ld)) = inr t /\
    default (VStr "logs") (dict_get "output_dir" gd) = VStr dir /\
    s = {| whisper := {| whisper_model := VStr m |};
           lmstudio := {| base_url := default (VStr "http://localhost:1234/v1") (dict_get "base_url" ld);
                          lm_model := default (VStr "lmstudio") (dict_get "model" ld);
                          temperature := t;
                          max_tokens := default VNone (dict_get "max_tokens" ld) |};
           logging := {| output_dir := dir |} |}.
Proof.
  split.
  - unfold from_mapping.
    destruct (section data "whisper") as [| | | | | |wd] eqn:Ew; simpl; try discriminate.
    destruct (set_contains _ _) as [e|[]] eqn:Ec; simpl; try discriminate.
    apply set_contains_allowed in Ec as [m [Hm Hin]].
    destruct (section data "lmstudio") as [| | | | | |ld] eqn:El; simpl; try discriminate.
    destruct (py_float _ _) as [e|t] eqn:Et; simpl; try discriminate.
    destruct (section data "logging") as [| | | | | |gd] eqn:Eg; simpl; try discriminate.
    destruct (default (VStr "logs") (dict_get "output_dir" gd)) eqn:Ed; simpl; try discriminate.
    intros E. injection E as <-. rewrite Hm. do 6 eexists. repeat split; eauto.
  - intros (wd & ld & gd & m & t & dir & Ew & El & Eg & Hm & Hin & Et & Ed & ->).
    unfold from_mapping. rewrite Ew, El, Eg. simpl. rewrite Hm. cbn [sum_bind set_contains].
    assert (Hex : existsb (String.eqb m) ALLOWED_WHISPER_MODELS = true)
      by (apply existsb_exists; exists m; split; [exact Hin|apply String.eqb_refl]).
    rewrite Hex. simpl. rewrite Et. simpl. rewrite Ed. reflexivity.
Qed.

(** A section that is present and truthy but not a table (a string, a
    number, an array) makes [from_mapping] raise: [AttributeError] for
    [whisper], and some exception for [lmstudio] and [logging]; no settings
    are ever produced from it. *)
Theorem non_table_section_fails fos data k v :
  In k ["whisper"; "lmstudio"; "logging"] ->
  truthy v = true -> (forall d, v <> VDict d) ->
  (exists e, from_mapping fos (dict_set k v data) = inl e) /\
  (k = "whisper" -> from_mapping fos (dict_set k v data) = inl AttributeError).
Proof.
  intros Hk Hv Hd.
  assert (Hg : forall key dflt, py_get (section (dict_set k v data) k) key dflt = inl AttributeError)
    by (intros; rewrite section_set_truthy by exact Hv; apply py_get_non_dict, Hd).
  assert (Hw : k = "whisper" -> from_mapping fos (dict_set k v data) = inl AttributeError)
    by (intros ->; unfold from_mapping; rewrite Hg; reflexivity).
  split; [|exact Hw].
  destruct (from_mapping fos (dict_set k v data)) as [e|st] eqn:E; [eauto|exfalso].
  apply from_mapping_success in E as (wd & ld & gd & _ & _ & _ & Ew & El & Eg & _).
  destruct Hk as [<-|[<-|[<-|[]]]];
    [rewrite section_set_truthy in Ew by exact Hv|rewrite section_set_truthy in El by exact Hv
    |rewrite section_set_truthy in Eg by exact Hv]; eapply Hd; eassumption.
Qed.

Local Open Scope Z_scope.

Lemma float_of_int_overflow n :
  float_of_int n = inl OverflowError <-> (2 ^ 1024 - 2 ^ 970 <= Z.abs n)%Z.
Proof.
  unfold float_of_int.
  destruct (Z.eqb_spec n 0) as [->|Hn0]; [split; [discriminate|simpl; lia]|].
  set (a := Z.abs n). assert (Ha : 0 < a) by lia.
  set (e := Z.log2 a). pose proof (Z.log2_spec a Ha) as [Hlo Hhi]. fold e in Hlo, Hhi.
  destruct (Z.leb_spec e 52) as [Hs|Hs].
  - destruct (Z.ltb_spec 1023 e); [lia|]. split; [discriminate|].
    intros Hge. assert (2 ^ Z.succ e <= 2 ^ 53) by (apply Z.pow_le_mono_r; lia). lia.
  - set (sh := e - 52).
    set (q0 := a / 2 ^ sh). set (r := a mod 2 ^ sh).
    assert (Hsh : 0 < 2 ^ sh) by (apply Z.pow_pos_nonneg; lia).
    assert (Hdiv : a = 2 ^ sh * q0 + r) by (apply Z.div_mod; lia).
    assert (Hr : 0 <= r < 2 ^ sh) by (apply Z.mod_pos_bound; lia).
    assert (He : 2 ^ e = 2 ^ sh * 2 ^ 52) by (rewrite <- Z.pow_add_r by lia; f_equal; lia).
    assert (He1 : 2 ^ Z.succ e = 2 ^ sh * 2 ^ 53) by (rewrite <- Z.pow_add_r by lia; f_equal; lia).
    assert (Hq0 : 2 ^ 52 <= q0 < 2 ^ 53) by nia.
    set (half := 2 ^ (sh - 1)).
    assert (Hhalf : 2 ^ sh = 2 * half)
      by (unfold half; rewrite <- Z.pow_succ_r by lia; f_equal; lia).
    set (q1 := if (half <? r) || ((r =? half) && Z.odd q0) then q0 + 1 else q0).
    assert (Hq1 : q1 = q0 \/ q1 = q0 + 1) by (unfold q1; destruct (_ || _); auto).
    assert (Hup : q1 = q0 + 1 <-> half < r \/ (r = half /\ Z.odd q0 = true)).
    { unfold q1. destruct (Z.ltb_spec half r), (Z.eqb_spec r half), (Z.odd q0); simpl;
        split; intros; try lia; intuition lia. }
    assert (Hbig : forall k, 1024 <= k -> 2 ^ 1024 <= 2 ^ k) by (intros; apply Z.pow_le_mono_r; lia).
    assert (Hsmall : e <= 1022 -> a < 2 ^ 1023).
    { intros Hle. assert (2 ^ Z.succ e <= 2 ^ 1023) by (apply Z.pow_le_mono_r; lia). lia. }
    assert (H1023 : e = 1023 -> 2 ^ sh = 2 ^ 971 /\ half = 2 ^ 970).
    { intros He0. unfold half, sh. rewrite He0. split; reflexivity. }
    destruct (Z.eqb_spec q1 (2 ^ 53)) as [Hq|Hq].
    + destruct (Z.ltb_spec 1023 (e + 1)) as [Ho|Ho]; (split; intros Hx; try discriminate; try reflexivity).
      * destruct (Z.eq_dec e 1023) as [E|E].
        -- destruct (H1023 E) as [E1 E2]. rewrite E1 in Hdiv. rewrite E2 in Hup.
           assert (q0 = 2 ^ 53 - 1) by lia.
           assert (2 ^ 970 <= r) by (destruct (proj1 Hup ltac:(lia)); lia). lia.
        -- specialize (Hbig e ltac:(lia)). lia.
      * exfalso. specialize (Hsmall ltac:(lia)). lia.
    + destruct (Z.ltb_spec 1023 e) as [Ho|Ho]; (split; intros Hx; try discriminate; try reflexivity).
      * specialize (Hbig e ltac:(lia)). lia.
      * exfalso. destruct (Z.eq_dec e 1023) as [E|E]; [|specialize (Hsmall ltac:(lia)); lia].
        destruct (H1023 E) as [E1 E2]. rewrite E1 in Hdiv, Hr. rewrite E2 in Hup.
        assert (Eq0 : q0 = 2 ^ 53 - 1) by lia.
        assert (Hodd : Z.odd q0 = true) by (rewrite Eq0; reflexivity).
        assert (q1 = q0 + 1) by (apply Hup; destruct (Z.lt_ge_cases (2 ^ 970) r); [left; lia|right; split; [lia|exact Hodd]]). lia.
Qed.

(** A [temperature] given as a TOML integer [n] (with an accepted
    Whisper model) makes [from_mapping] raise [OverflowError] exactly when
    [float(n)] rounds past the largest binary64, that is when
    [|n| >= 2^1024 - 2^970]; every other outcome is something else. *)
Theorem integer_temperature_overflow fos data wm ld n :
  py_get (section data "whisper") "model" (VStr "small") = inr wm ->
  set_contains ALLOWED_WHISPER_MODELS wm = inr true ->
  section data "lmstudio" = VDict ld ->
  dict_get "temperature" ld = Some (VInt n) ->
  from_mapping fos data = inl OverflowError <-> (2 ^ 1024 - 2 ^ 970 <= Z.abs n)%Z.
Proof.
  intros Hw Hc El Ht. rewrite <- float_of_int_overflow.
  unfold from_mapping. rewrite Hw. simpl. rewrite Hc. simpl. rewrite El. simpl. rewrite Ht. simpl.
  destruct (float_of_int n) as [e|t]; simpl; [split; intros E; injection E as ->; reflexivity|].
  split; [|discriminate]. destruct (section data "logging"); simpl; try discriminate.
  destruct (default _ _); simpl; discriminate.
Qed.

Lemma falsy_section_as_empty_witness :
  truthy (VStr "") = false /\
  from_mapping no_float_of_str (dict_set "whisper" (VStr "") [("whisper", VDict [("model", VStr "huge")])]) =
  from_mapping no_float_of_str (dict_set "whisper" (VDict []) [("whisper", VDict [("model", VStr "huge")])]).
Proof.
  assert (Hv : truthy (VStr "") = false) by reflexivity.
  split; [exact Hv|]. exact (falsy_section_as_empty no_float_of_str _ "whisper" _ Hv).
Defined.

Lemma from_mapping_model_allowed_witness :
  py_get (section [("whisper", VDict [("model", VStr "huge")])] "whisper") "model" (VStr "small")
    = inr (VStr "huge") /\
  ~ In "huge" ALLOWED_WHISPER_MODELS /\
  from_mapping no_float_of_str [("whisper", VDict [("model", VStr "huge")])] = inl ValueError.
Proof.
  assert (Hg : py_get (section [("whisper", VDict [("model", VStr "huge")])] "whisper") "model"
                 (VStr "small") = inr (VStr "huge")) by reflexivity.
  assert (Hn : ~ In "huge" ALLOWED_WHISPER_MODELS) by (simpl; intuition discriminate).
  split; [exact Hg|]. split; [exact Hn|].
  exact (proj2 (from_mapping_model_allowed no_float_of_str _) "huge" Hg Hn).
Defined.

Lemma from_mapping_success_witness :
  from_mapping no_float_of_str
    [("lmstudio", VDict [("temperature", VInt 1); ("max_tokens", VInt 256)])] =
  inr {| whisper := {| whisper_model := VStr "small" |};
         lmstudio := {| base_url := VStr "http://localhost:1234/v1"; lm_model := VStr "lmstudio";
                        temperature := PyFloat 4607182418800017408; max_tokens := VInt 256 |};
         logging := {| output_dir := "logs" |} |}.
Proof.
  apply (proj2 (from_mapping_success no_float_of_str _ _)).
  exists [], [("temperature", VInt 1); ("max_tokens", VInt 256)], [], "small",
         (PyFloat 4607182418800017408), "logs".
  repeat split; try reflexivity. simpl. tauto.
Defined.

Lemma non_table_section_fails_witness :
  from_mapping no_float_of_str (dict_set "whisper" (VInt 3) []) = inl AttributeError.
Proof.
  exact (proj2 (non_table_section_fails no_float_of_str [] "whisper" (VInt 3)
                  ltac:(simpl; tauto) ltac:(reflexivity) ltac:(discriminate)) eq_refl).
Defined.

Lemma integer_temperature_overflow_witness :
  from_mapping no_float_of_str [("lmstudio", VDict [("temperature", VInt (2 ^ 1024))])] =
    inl OverflowError /\
  from_mapping no_float_of_str
    [("lmstudio", VDict [("temperature", VInt (2 ^ 1024 - 2 ^ 970 - 1))])] <> inl OverflowError.
Proof.
  split.
  - exact (proj2 (integer_temperature_overflow no_float_of_str
                    [("lmstudio", VDict [("temperature", VInt (2 ^ 1024))])] (VStr "small")
                    [("temperature", VInt (2 ^ 1024))] (2 ^ 1024)
                    ltac:(reflexivity) ltac:(reflexivity) ltac:(reflexivity) ltac:(reflexivity))
                 ltac:(lia)).
  - intros H.
    apply (proj1 (integer_temperature_overflow no_float_of_str
                    [("lmstudio", VDict [("temperature", VInt (2 ^ 1024 - 2 ^ 970 - 1))])]
                    (VStr "small") [("temperature", VInt (2 ^ 1024 - 2 ^ 970 - 1))]
                    (2 ^ 1024 - 2 ^ 970 - 1)
                    ltac:(reflexivity) ltac:(reflexivity) ltac:(reflexivity) ltac:(reflexivity))) in H.
    lia.
Defined.

End SettingsProofs.
